(** * The location-tracking WebSocket hub ([src/server/websocket.ts])

    A shallow embedding of the connection registry, the message handler,
    the broadcast router and the stale sweep, followed by the properties
    the specification states about them.

    The handler is asynchronous in the source; here one handler run is one
    atomic step.  Everything the host decides (the clock, the state of each
    socket, whether a send or a database call raises) is read from a [Host]
    record that stays fixed during the run. *)

From Stdlib Require Import ZArith List String Bool Lia Floats.
Import ListNotations.

Local Open Scope string_scope.
Local Open Scope Z_scope.

(** ** JavaScript values *)

(** What [JSON.parse] can put into a property, plus [undefined] for a
    property that is absent.  Numbers are IEEE doubles.  Objects and arrays
    are kept opaque: [ref] is the identity of the object and [text] is what
    its [toString()] returns ([None] when that call raises, as it does for an
    object that shadows [toString] with a non-function). *)
Inductive JsVal : Type :=
| JUndefined
| JNull
| JBool (b : bool)
| JNum (f : float)
| JStr (s : string)
| JObj (ref : nat) (text : option string).

(** Text produced at run time.  The decimal rendering of a number is kept
    symbolic ([Dec f]); [Cat] is string concatenation. *)
Inductive Text : Type :=
| Lit (s : string)
| Dec (f : float)
| Cat (a b : Text).

Coercion Lit : string >-> Text.

(** [s.length === 0] *)
Definition string_empty (s : string) : bool :=
  match s with
  | EmptyString => true
  | String _ _ => false
  end.

Fixpoint text_empty (t : Text) : bool :=
  match t with
  | Lit s => string_empty s
  | Dec _ => false
  | Cat a b => text_empty a && text_empty b
  end.

(** ToBoolean: [undefined], [null], [false], [+0], [-0], [NaN] and the empty
    string are falsy, everything else is truthy. *)
Definition truthy (v : JsVal) : bool :=
  match v with
  | JUndefined => false
  | JNull => false
  | JBool b => b
  | JNum f => negb (PrimFloat.is_zero f || PrimFloat.is_nan f)
  | JStr s => negb (string_empty s)
  | JObj _ _ => true
  end.

(** The [===] operator. *)
Definition strict_eq (a b : JsVal) : bool :=
  match a, b with
  | JUndefined, JUndefined => true
  | JNull, JNull => true
  | JBool x, JBool y => Bool.eqb x y
  | JNum x, JNum y => PrimFloat.eqb x y
  | JStr x, JStr y => String.eqb x y
  | JObj x _, JObj y _ => Nat.eqb x y
  | _, _ => false
  end.

(** [v === "literal"], the test a [switch] case performs. *)
Definition is_str (v : JsVal) (s : string) : bool := strict_eq v (JStr s).

(** A thrown value, reduced to its message. *)
Inductive Result (A : Type) : Type :=
| Ok (a : A)
| Throw (e : Text).
Arguments Ok {A} a.
Arguments Throw {A} e.

(** [v.toString()] *)
Definition toString (v : JsVal) : Result Text :=
  match v with
  | JUndefined => Throw "Cannot read properties of undefined (reading 'toString')"
  | JNull => Throw "Cannot read properties of null (reading 'toString')"
  | JBool true => Ok (Lit "true")
  | JBool false => Ok (Lit "false")
  | JNum f => Ok (Dec f)
  | JStr s => Ok (Lit s)
  | JObj _ (Some s) => Ok (Lit s)
  | JObj _ None => Throw "toString is not a function"
  end.

(** [v?.toString()] *)
Definition toString_opt (v : JsVal) : Result (option Text) :=
  match v with
  | JUndefined | JNull => Ok None
  | _ => match toString v with
         | Ok t => Ok (Some t)
         | Throw e => Throw e
         end
  end.

(** ** Messages *)

Module Msg.
(** The properties of a parsed frame that the handler reads.  A property
    that is absent is [JUndefined]; a frame that parses to a number, a
    string, a boolean or an array has every one of them absent. *)
Record t : Type := mk {
  type : JsVal;
  userId : JsVal;
  role : JsVal;
  bookingId : JsVal;
  latitude : JsVal;
  longitude : JsVal;
  speed : JsVal;
  heading : JsVal
}.

Definition empty : t :=
  mk JUndefined JUndefined JUndefined JUndefined
     JUndefined JUndefined JUndefined JUndefined.
End Msg.

(** What [JSON.parse(message.toString('utf-8'))] does with a frame. *)
Inductive Parsed : Type :=
| ParseError                 (* JSON.parse raised *)
| ParsedNull                 (* the frame is the JSON text null *)
| ParsedData (data : Msg.t).

(** Frames the server writes. *)
Inductive Frame : Type :=
| FError (message : Text)
| FConnectionEstablished
| FInitSuccess
| FSubscribeSuccess (bookingId : JsVal)
| FPong
| FLocationUpdate (data : Msg.t).

(** ** Sockets and the registry *)

(** A socket is known by its identity. *)
Definition WS : Type := nat.

Inductive ReadyState : Type := CONNECTING | OPEN | CLOSING | CLOSED.

Definition ReadyState_eqb (a b : ReadyState) : bool :=
  match a, b with
  | CONNECTING, CONNECTING | OPEN, OPEN | CLOSING, CLOSING | CLOSED, CLOSED => true
  | _, _ => false
  end.

Record TrackingClient : Type := mkClient {
  ws : WS;
  bookingId : JsVal;           (* bookingId?: JUndefined while absent *)
  userId : JsVal;
  role : JsVal;
  lastPing : option Z          (* lastPing?: milliseconds since the epoch *)
}.

(** [const clients = new Map<WS, TrackingClient>()]: the entries in
    insertion order. *)
Definition Registry : Type := list (WS * TrackingClient).

Fixpoint map_get (m : Registry) (k : WS) : option TrackingClient :=
  match m with
  | [] => None
  | (k', c) :: rest => if Nat.eqb k' k then Some c else map_get rest k
  end.

(** [Map.prototype.set]: an existing key keeps its place. *)
Fixpoint map_set (m : Registry) (k : WS) (c : TrackingClient) : Registry :=
  match m with
  | [] => [(k, c)]
  | (k', c') :: rest =>
      if Nat.eqb k' k then (k, c) :: rest else (k', c') :: map_set rest k c
  end.

(** [Map.prototype.delete] *)
Definition map_delete (m : Registry) (k : WS) : Registry :=
  filter (fun e => negb (Nat.eqb (fst e) k)) m.

(** Assignment to a property of the object stored under [k].  The handler
    holds the object it got from [clients.get(ws)]; the registry holds the
    same object, so the write is seen through the registry. *)
Fixpoint map_mutate (m : Registry) (k : WS) (f : TrackingClient -> TrackingClient)
  : Registry :=
  match m with
  | [] => []
  | (k', c) :: rest =>
      if Nat.eqb k' k then (k', f c) :: rest else (k', c) :: map_mutate rest k f
  end.

Definition keys (m : Registry) : list WS := map fst m.

(** A [Map] holds each key once. *)
Definition wf_registry (m : Registry) : Prop := NoDup (keys m).

(** ** The host: clock, sockets, persistence store *)

Module Db.
(** The values of [db.insert(locationTracking).values({...})]. *)
Record LocationTracking : Type := mkRow {
  bookingId : JsVal;
  latitude : Text;
  longitude : Text;
  speed : option Text;
  heading : option Text;
  status : string
}.

(** [db.update(bookings).set({...}).where(eq(bookings.id, id))] *)
Record BookingsUpdate : Type := mkUpdate {
  lastKnownLatitude : Text;
  lastKnownLongitude : Text;
  lastLocationUpdate : Z;
  where_id : JsVal
}.
End Db.

(** What the surroundings answer during one handler run. *)
Record Host : Type := mkHost {
  Date_now : Z;                                        (* Date.now() *)
  new_Date : Z;                                        (* new Date() *)
  readyState : WS -> ReadyState;                       (* ws.readyState *)
  send_raises : WS -> Frame -> option Text;            (* ws.send throws *)
  insert_raises : Db.LocationTracking -> option Text;  (* the insert rejects *)
  update_raises : Db.BookingsUpdate -> option Text     (* the update rejects *)
}.

(** What a run does to the outside, in the order it happens.  [raised] is
    [None] when the call returned and the message of the exception when it
    did not.  Console output is left out. *)
Inductive Event : Type :=
| Send (to : WS) (frame : Frame) (raised : option Text)
| Insert (values : Db.LocationTracking) (raised : option Text)
| Update (patch : Db.BookingsUpdate) (raised : option Text).

(** ** A monad for handler code

    A computation reads the host, reads and writes the registry, emits
    events and either returns or throws.  What was written and emitted
    before a throw stays. *)

Record Run (A : Type) : Type := mkRun {
  registry : Registry;
  events : list Event;
  result : Result A
}.
Arguments mkRun {A} registry events result.
Arguments registry {A} r.
Arguments events {A} r.
Arguments result {A} r.

Definition M (A : Type) : Type := Host -> Registry -> Run A.

Definition ret {A} (a : A) : M A := fun _ m => mkRun m [] (Ok a).

Definition throw {A} (e : Text) : M A := fun _ m => mkRun m [] (Throw e).

Definition bind {A B} (c : M A) (k : A -> M B) : M B :=
  fun h m =>
    let r := c h m in
    match result r with
    | Ok a =>
        let r' := k a h (registry r) in
        mkRun (registry r') (events r ++ events r') (result r')
    | Throw e => mkRun (registry r) (events r) (Throw e)
    end.

(** [try { c } catch (error) { handler(error) }] *)
Definition catch {A} (c : M A) (handler : Text -> M A) : M A :=
  fun h m =>
    let r := c h m in
    match result r with
    | Ok a => r
    | Throw e =>
        let r' := handler e h (registry r) in
        mkRun (registry r') (events r ++ events r') (result r')
    end.

Notation "x <- c ;; k" := (bind c (fun x => k))
  (at level 61, c at next level, right associativity).
Notation "c ;; k" := (bind c (fun _ => k))
  (at level 61, right associativity).

Definition lift {A} (r : Result A) : M A :=
  match r with
  | Ok a => ret a
  | Throw e => throw e
  end.

Definition ask {A} (f : Host -> A) : M A := fun h m => mkRun m [] (Ok (f h)).

Definition clients_get (k : WS) : M (option TrackingClient) :=
  fun _ m => mkRun m [] (Ok (map_get m k)).

Definition clients_set (k : WS) (c : TrackingClient) : M unit :=
  fun _ m => mkRun (map_set m k c) [] (Ok tt).

Definition clients_delete (k : WS) : M unit :=
  fun _ m => mkRun (map_delete m k) [] (Ok tt).

Definition clients_mutate (k : WS) (f : TrackingClient -> TrackingClient) : M unit :=
  fun _ m => mkRun (map_mutate m k f) [] (Ok tt).

(** [Array.from(clients.entries())] *)
Definition clients_entries : M (list (WS * TrackingClient)) :=
  fun _ m => mkRun m [] (Ok m).

Definition outcome (raised : option Text) : Result unit :=
  match raised with
  | None => Ok tt
  | Some e => Throw e
  end.

(** [ws.send(JSON.stringify(frame))] *)
Definition send (to : WS) (frame : Frame) : M unit :=
  fun h m =>
    let raised := send_raises h to frame in
    mkRun m [Send to frame raised] (outcome raised).

(** [await db.insert(locationTracking).values(values)] *)
Definition db_insert (values : Db.LocationTracking) : M unit :=
  fun h m =>
    let raised := insert_raises h values in
    mkRun m [Insert values raised] (outcome raised).

(** [await db.update(bookings).set(...).where(...)] *)
Definition db_update (patch : Db.BookingsUpdate) : M unit :=
  fun h m =>
    let raised := update_raises h patch in
    mkRun m [Update patch raised] (outcome raised).

(** ** The program *)

Definition set_bookingId (v : JsVal) (c : TrackingClient) : TrackingClient :=
  mkClient (ws c) v (userId c) (role c) (lastPing c).

Definition set_lastPing (t : Z) (c : TrackingClient) : TrackingClient :=
  mkClient (ws c) (bookingId c) (userId c) (role c) (Some t).

(** [lastPing] as a condition: absent and [0] are falsy. *)
Definition lastPing_truthy (c : TrackingClient) : bool :=
  match lastPing c with
  | None => false
  | Some t => negb (t =? 0)
  end.

(** [`${v}`] *)
Definition template (v : JsVal) : Result Text :=
  match v with
  | JUndefined => Ok (Lit "undefined")
  | JNull => Ok (Lit "null")
  | JObj _ None => Throw "Cannot convert object to primitive value"
  | _ => toString v
  end.

Definition handleClose (ws : WS) : M unit :=
  clients_delete ws.

(** [error.message || "Internal server error"] *)
Definition reported (error : Text) : Text :=
  if text_empty error then Lit "Internal server error" else error.

Definition handleError (ws : WS) (error : Text) : M unit :=
  state <- ask (fun h => readyState h ws) ;;
  if ReadyState_eqb state OPEN then
    catch (send ws (FError (reported error))) (fun _ => ret tt)
  else ret tt.

Definition matches (update : Msg.t) (h : Host) (e : WS * TrackingClient) : bool :=
  strict_eq (bookingId (snd e)) (Msg.bookingId update)
  && ReadyState_eqb (readyState h (fst e)) OPEN.

Fixpoint broadcast_loop (update : Msg.t) (clientsArray : list (WS * TrackingClient))
  : M unit :=
  match clientsArray with
  | [] => ret tt
  | (ws, client) :: rest =>
      state <- ask (fun h => readyState h ws) ;;
      (if strict_eq (bookingId client) (Msg.bookingId update)
          && ReadyState_eqb state OPEN
       then catch (send ws (FLocationUpdate update))
                  (fun _ => clients_delete ws)
       else ret tt) ;;
      broadcast_loop update rest
  end.

Definition broadcastLocationUpdate (update : Msg.t) : M unit :=
  clientsArray <- clients_entries ;;
  broadcast_loop update clientsArray.

Definition STALE_TIMEOUT : Z := 120000.

Definition stale (h : Host) (now : Z) (e : WS * TrackingClient) : bool :=
  ReadyState_eqb (readyState h (fst e)) CLOSED
  || ReadyState_eqb (readyState h (fst e)) CLOSING
  || (lastPing_truthy (snd e)
      && match lastPing (snd e) with
         | Some t => now - t >? STALE_TIMEOUT
         | None => false
         end).

Fixpoint cleanup_loop (now : Z) (clientsArray : list (WS * TrackingClient))
  : M unit :=
  match clientsArray with
  | [] => ret tt
  | (ws, client) :: rest =>
      h <- ask (fun h => h) ;;
      (if stale h now (ws, client) then clients_delete ws else ret tt) ;;
      cleanup_loop now rest
  end.

Definition cleanupStaleConnections : M unit :=
  now <- ask Date_now ;;
  clientsArray <- clients_entries ;;
  cleanup_loop now clientsArray.

(** The [case "init"] block. *)
Definition handle_init (ws : WS) (initData : Msg.t) : M unit :=
  if negb (truthy (Msg.userId initData)) || negb (truthy (Msg.role initData))
  then throw "userId and role are required for initialization"
  else
    now <- ask Date_now ;;
    clients_set ws (mkClient ws JUndefined (Msg.userId initData)
                             (Msg.role initData) (Some now)) ;;
    send ws FInitSuccess.

(** The [case "subscribe_tracking"] block. *)
Definition handle_subscribe (ws : WS) (client : option TrackingClient)
    (subData : Msg.t) : M unit :=
  if negb (truthy (Msg.bookingId subData))
  then throw "bookingId is required for tracking subscription"
  else
    match client with
    | Some _ =>
        clients_mutate ws (set_bookingId (Msg.bookingId subData)) ;;
        now <- ask Date_now ;;
        clients_mutate ws (set_lastPing now) ;;
        send ws (FSubscribeSuccess (Msg.bookingId subData))
    | None => ret tt
    end.

(** The [case "location_update"] block. *)
Definition handle_location (ws : WS) (client : option TrackingClient)
    (locationData : Msg.t) : M unit :=
  if negb (truthy (Msg.bookingId locationData))
     || negb (truthy (Msg.latitude locationData))
     || negb (truthy (Msg.longitude locationData))
  then throw "Invalid location update data"
  else
    match client with
    | Some _ =>
        now <- ask Date_now ;;
        clients_mutate ws (set_lastPing now)
    | None => ret tt
    end ;;
    latitude <- lift (toString (Msg.latitude locationData)) ;;
    longitude <- lift (toString (Msg.longitude locationData)) ;;
    speed <- lift (toString_opt (Msg.speed locationData)) ;;
    heading <- lift (toString_opt (Msg.heading locationData)) ;;
    db_insert (Db.mkRow (Msg.bookingId locationData) latitude longitude
                        speed heading "active") ;;
    lastKnownLatitude <- lift (toString (Msg.latitude locationData)) ;;
    lastKnownLongitude <- lift (toString (Msg.longitude locationData)) ;;
    lastLocationUpdate <- ask new_Date ;;
    db_update (Db.mkUpdate lastKnownLatitude lastKnownLongitude
                           lastLocationUpdate (Msg.bookingId locationData)) ;;
    broadcastLocationUpdate locationData.

(** The [case "ping"] block. *)
Definition handle_ping (ws : WS) (client : option TrackingClient) : M unit :=
  match client with
  | Some _ =>
      now <- ask Date_now ;;
      clients_mutate ws (set_lastPing now) ;;
      send ws FPong
  | None => ret tt
  end.

(** The [default] block. *)
Definition handle_unknown (data : Msg.t) : M unit :=
  shown <- lift (template (Msg.type data)) ;;
  throw (Cat (Lit "Unknown message type: ") shown).

Definition dispatch (ws : WS) (client : option TrackingClient) (data : Msg.t)
  : M unit :=
  if is_str (Msg.type data) "init" then handle_init ws data
  else if is_str (Msg.type data) "subscribe_tracking" then handle_subscribe ws client data
  else if is_str (Msg.type data) "location_update" then handle_location ws client data
  else if is_str (Msg.type data) "ping" then handle_ping ws client
  else handle_unknown data.

Definition is_none {A} (o : option A) : bool :=
  match o with
  | None => true
  | Some _ => false
  end.

Definition handleMessage (ws : WS) (message : Parsed) : M unit :=
  match message with
  | ParseError => handleError ws "Invalid JSON message"
  | ParsedNull => throw "Cannot read properties of null (reading 'type')"
  | ParsedData data =>
      if negb (truthy (Msg.type data))
      then handleError ws "Message type is required"
      else
        client <- clients_get ws ;;
        if is_none client && negb (is_str (Msg.type data) "init")
        then handleError ws "Client not initialized"
        else catch (dispatch ws client data) (fun error => handleError ws error)
  end.

(** ** The connection handler and the heartbeat sweep *)

(** The callback of [wss.on("connection", ...)].  Registering the three
    listeners changes nothing that the model tracks. *)
Definition onConnection (ws : WS) : M unit :=
  state <- ask (fun h => readyState h ws) ;;
  if ReadyState_eqb state OPEN then
    catch (send ws FConnectionEstablished) (fun _ => ret tt)
  else ret tt.

Definition PING_INTERVAL : Z := 30000.
Definition PING_TIMEOUT : Z := 70000.

(** What the sockets answer to the two calls only the heartbeat makes. *)
Record Probes : Type := mkProbes {
  close_raises : WS -> option Text;    (* ws.close() throws *)
  ping_raises : WS -> option Text      (* ws.ping() throws *)
}.

(** The calls of a heartbeat sweep, in the order they happen. *)
Inductive SocketCall : Type :=
| Close (on : WS) (raised : option Text)
| Ping (on : WS) (raised : option Text).

Record Sweep : Type := mkSweep {
  sweep_registry : Registry;
  sweep_calls : list SocketCall;
  sweep_result : Result unit
}.

(** [client.lastPing && now - client.lastPing > PING_TIMEOUT] *)
Definition timed_out (now : Z) (client : TrackingClient) : bool :=
  lastPing_truthy client
  && match lastPing client with
     | Some t => now - t >? PING_TIMEOUT
     | None => false
     end.

(** The body of the heartbeat's [for] loop over the snapshot.  The log line of
    a timed-out client renders [client.userId] in a template; that and
    [ws.close()] stand outside any [try], so either one raising ends the
    sweep.  [ws.ping()] is inside a [try] whose handler deletes the entry. *)
Fixpoint heartbeat_loop (p : Probes) (h : Host) (now : Z)
    (clientsArray : list (WS * TrackingClient)) (m : Registry) : Sweep :=
  match clientsArray with
  | [] => mkSweep m [] (Ok tt)
  | (ws, client) :: rest =>
      if timed_out now client then
        match template (userId client) with
        | Throw e => mkSweep m [] (Throw e)
        | Ok _ =>
            match close_raises p ws with
            | Some e => mkSweep m [Close ws (Some e)] (Throw e)
            | None =>
                let r := heartbeat_loop p h now rest (map_delete m ws) in
                mkSweep (sweep_registry r) (Close ws None :: sweep_calls r)
                        (sweep_result r)
            end
        end
      else if ReadyState_eqb (readyState h ws) OPEN then
        match ping_raises p ws with
        | Some e =>
            let r := heartbeat_loop p h now rest (map_delete m ws) in
            mkSweep (sweep_registry r) (Ping ws (Some e) :: sweep_calls r)
                    (sweep_result r)
        | None =>
            let r := heartbeat_loop p h now rest m in
            mkSweep (sweep_registry r) (Ping ws None :: sweep_calls r)
                    (sweep_result r)
        end
      else heartbeat_loop p h now rest m
  end.

(** The callback of [setInterval(..., PING_INTERVAL)]. *)
Definition heartbeat (p : Probes) (h : Host) (m : Registry) : Sweep :=
  heartbeat_loop p h (Date_now h) m m.

(** Sockets that take every close and every ping. *)
Definition gentle : Probes := mkProbes (fun _ => None) (fun _ => None).

(** Sockets of which [bad] raises on ping. *)
Definition deaf (bad : WS) : Probes :=
  mkProbes (fun _ => None)
           (fun k => if Nat.eqb k bad then Some (Lit "socket hang up") else None).

Arguments deaf bad%_nat.

(** ** Sample data used by the examples *)

Definition num (f : float) : JsVal := JNum f.

Definition msg_init (userId role : JsVal) : Msg.t :=
  Msg.mk (JStr "init") userId role JUndefined JUndefined JUndefined
         JUndefined JUndefined.

Definition msg_subscribe (bookingId : JsVal) : Msg.t :=
  Msg.mk (JStr "subscribe_tracking") JUndefined JUndefined bookingId
         JUndefined JUndefined JUndefined JUndefined.

Definition msg_location (bookingId latitude longitude : JsVal) : Msg.t :=
  Msg.mk (JStr "location_update") JUndefined JUndefined bookingId
         latitude longitude JUndefined JUndefined.

Definition msg_ping : Msg.t :=
  Msg.mk (JStr "ping") JUndefined JUndefined JUndefined JUndefined JUndefined
         JUndefined JUndefined.

(** A host where every socket is open and nothing raises. *)
Definition calm (now : Z) : Host :=
  mkHost now now (fun _ => OPEN) (fun _ _ => None) (fun _ => None) (fun _ => None).

Definition driver (k : WS) (t : Z) : TrackingClient :=
  mkClient k JUndefined (num 7) (JStr "driver") (Some t).

Definition passenger (k : WS) (booking : float) (t : Z) : TrackingClient :=
  mkClient k (num booking) (num 8) (JStr "passenger") (Some t).

Arguments driver k%_nat t%_Z.
Arguments passenger k%_nat booking%_float t%_Z.

(** ** Vocabulary of the properties *)

Definition is_some {A} (o : option A) : bool := negb (is_none o).

(** The event of handing the update to the socket of entry [e]. *)
Definition attempt (update : Msg.t) (h : Host) (e : WS * TrackingClient) : Event :=
  Send (fst e) (FLocationUpdate update)
       (send_raises h (fst e) (FLocationUpdate update)).

(** Entries the broadcast sends to and whose socket raises. *)
Definition dropped (update : Msg.t) (h : Host) (e : WS * TrackingClient) : bool :=
  matches update h e && is_some (send_raises h (fst e) (FLocationUpdate update)).

(** An event that hands a location update to socket [r]. *)
Definition update_sent_to (r : WS) (ev : Event) : Prop :=
  exists data raised, ev = Send r (FLocationUpdate data) raised.

(** An event that writes to the persistence store. *)
Definition is_write (ev : Event) : Prop :=
  match ev with
  | Insert _ _ | Update _ _ => True
  | Send _ _ _ => False
  end.

(** An event that hands a location update to some socket. *)
Definition is_fanout (ev : Event) : Prop :=
  match ev with
  | Send _ (FLocationUpdate _) _ => True
  | _ => False
  end.

(** Every session carries a liveness stamp that reads as true.  [init] writes
    [Date.now()] into each record it creates, so this holds of every registry
    the handler builds while the clock is not at the epoch itself. *)
Definition stamped (m : Registry) : Prop :=
  forall k c, In (k, c) m -> lastPing_truthy c = true.

(** The specification's wording of the broadcast cleanup: a subscriber of the
    sample's booking whose socket is not open is gone after the broadcast. *)
Definition broadcast_evicts_closed (h : Host) (m : Registry) (update : Msg.t) : Prop :=
  forall r c,
    In (r, c) m ->
    strict_eq (bookingId c) (Msg.bookingId update) = true ->
    readyState h r <> OPEN ->
    map_get (registry (broadcastLocationUpdate update h m)) r = None.

(** A host whose socket [bad] raises on every send; all sockets are open. *)
Definition flaky (bad : WS) (now : Z) : Host :=
  mkHost now now (fun _ => OPEN)
         (fun k _ => if Nat.eqb k bad then Some (Lit "write EPIPE") else None)
         (fun _ => None) (fun _ => None).

(** A host whose socket [gone] is closed; the others are open. *)
Definition hung_up (gone : WS) (now : Z) : Host :=
  mkHost now now (fun k => if Nat.eqb k gone then CLOSED else OPEN)
         (fun _ _ => None) (fun _ => None) (fun _ => None).

(** A host whose store takes the insert and rejects the update. *)
Definition update_down (now : Z) : Host :=
  mkHost now now (fun _ => OPEN) (fun _ _ => None) (fun _ => None)
         (fun _ => Some (Lit "connection terminated")).

Arguments flaky bad%_nat now%_Z.
Arguments hung_up gone%_nat now%_Z.

Definition sample5 : Msg.t := msg_location (num 5) (num 1.5) (num 2).

(** A double that is a whole number: zero, or a mantissa times a power of
    two with no fractional bits. *)
Definition is_integer (f : float) : bool :=
  match Prim2SF f with
  | S754_zero _ => true
  | S754_finite _ mant e => (0 <=? e) || (Z.land (Zpos mant) (Z.ones (- e)) =? 0)
  | _ => false
  end.

(** The specification's "positive integer". *)
Definition positive_integer (v : JsVal) : bool :=
  match v with
  | JNum f => PrimFloat.ltb 0 f && is_integer f
  | _ => false
  end.

(** The specification's "non-empty string". *)
Definition nonempty_string (v : JsVal) : bool :=
  match v with
  | JStr s => negb (string_empty s)
  | _ => false
  end.

(** An [init] went through: the registry holds the fresh record for the
    socket and [init_success] was handed to it. *)
Definition init_succeeded (h : Host) (m : Registry) (k : WS) (data : Msg.t) : Prop :=
  map_get (registry (handleMessage k (ParsedData data) h m)) k
  = Some (mkClient k JUndefined (Msg.userId data) (Msg.role data)
                   (Some (Date_now h)))
  /\ exists raised,
       In (Send k FInitSuccess raised)
          (events (handleMessage k (ParsedData data) h m)).

(** The specification's wording of when an [init] goes through. *)
Definition init_needs_positive_integer
    (h : Host) (m : Registry) (k : WS) (data : Msg.t) : Prop :=
  init_succeeded h m k data
  <-> positive_integer (Msg.userId data) = true
      /\ nonempty_string (Msg.role data) = true.

(** The specification's wording of the tolerated update failure: when the
    insert went through and the update raised, every open subscriber of the
    sample's booking is still handed the sample, and an error frame goes to
    the submitting socket. *)
Definition update_failure_still_broadcasts
    (h : Host) (m : Registry) (k : WS) (data : Msg.t) : Prop :=
  forall row patch e,
    In (Insert row None) (events (handleMessage k (ParsedData data) h m)) ->
    In (Update patch (Some e)) (events (handleMessage k (ParsedData data) h m)) ->
    (forall r c,
        In (r, c) m ->
        strict_eq (bookingId c) (Msg.bookingId data) = true ->
        readyState h r = OPEN ->
        exists raised,
          In (Send r (FLocationUpdate data) raised)
             (events (handleMessage k (ParsedData data) h m)))
    /\ exists message raised,
         In (Send k (FError message) raised)
            (events (handleMessage k (ParsedData data) h m)).

(** A computation keeps a property of the registry. *)
Definition keeps {A} (P : Registry -> Prop) (h : Host) (c : M A) : Prop :=
  forall m, P m -> P (registry (c h m)).

(** Every event of a computation satisfies [Q]. *)
Definition emits {A} (Q : Event -> Prop) (h : Host) (c : M A) : Prop :=
  forall m, Forall Q (events (c h m)).

(** Every run of a computation relates the registry before to the one
    after. *)
Definition steps {A} (R : Registry -> Registry -> Prop) (h : Host) (c : M A) : Prop :=
  forall m, R m (registry (c h m)).

(** The sessions of the sockets other than [k] are the same in [m'] as in
    [m]. *)
Definition others_untouched (k : WS) (m m' : Registry) : Prop :=
  forall r, r <> k -> map_get m' r = map_get m r.

(** Each session of a socket other than [k] is in [m'] what it is in [m], or
    is gone. *)
Definition others_kept_or_gone (k : WS) (m m' : Registry) : Prop :=
  forall r, r <> k -> map_get m' r = map_get m r \/ map_get m' r = None.

(** An event that is a frame to socket [k] and no location update. *)
Definition reply_to (k : WS) (ev : Event) : Prop :=
  match ev with
  | Send r frame _ => r = k /\ ~ is_fanout ev
  | Insert _ _ | Update _ _ => False
  end.

(** What a frame [data] arriving on socket [k] can cause: a reply to [k]; or,
    when the frame is a [location_update], a write to the store or the
    sample itself handed to some socket. *)
Definition caused_by (k : WS) (data : Msg.t) (ev : Event) : Prop :=
  reply_to k ev
  \/ (is_str (Msg.type data) "location_update" = true
      /\ (is_write ev
          \/ exists r raised, ev = Send r (FLocationUpdate data) raised)).

(** The row and the patch that a sample gives, once its numbers are
    rendered. *)
Definition tracking_row (data : Msg.t) (lat lon : Text) (spd hdg : option Text)
  : Db.LocationTracking :=
  Db.mkRow (Msg.bookingId data) lat lon spd hdg "active".

Definition booking_patch (data : Msg.t) (h : Host) (lat lon : Text)
  : Db.BookingsUpdate :=
  Db.mkUpdate lat lon (new_Date h) (Msg.bookingId data).

(** The three ways a validated and rendered sample can end, by what the store
    answers; [m1] is the registry with the sender's stamp refreshed. *)
Definition ingest_outcome (k : WS) (data : Msg.t) (h : Host) (m1 : Registry)
    (lat lon : Text) (spd hdg : option Text) : Run unit :=
  match insert_raises h (tracking_row data lat lon spd hdg) with
  | Some e =>
      mkRun m1
            (Insert (tracking_row data lat lon spd hdg) (Some e)
             :: events (handleError k e h m1))
            (Ok tt)
  | None =>
      match update_raises h (booking_patch data h lat lon) with
      | Some e =>
          mkRun m1
                (Insert (tracking_row data lat lon spd hdg) None
                 :: Update (booking_patch data h lat lon) (Some e)
                 :: events (handleError k e h m1))
                (Ok tt)
      | None =>
          mkRun (registry (broadcastLocationUpdate data h m1))
                (Insert (tracking_row data lat lon spd hdg) None
                 :: Update (booking_patch data h lat lon) None
                 :: events (broadcastLocationUpdate data h m1))
                (Ok tt)
      end
  end.

(** The registry after the frames [frames] have arrived on socket [k], one
    after the other, each under its own host. *)
Definition session_frames (k : WS) (frames : list (Host * Msg.t)) (m : Registry)
  : Registry :=
  fold_left (fun m0 f => registry (handleMessage k (ParsedData (snd f)) (fst f) m0))
            frames m.

(** The type of the frame is none of the four the [switch] knows. *)
Definition unknown_type (data : Msg.t) : Prop :=
  is_str (Msg.type data) "init" = false
  /\ is_str (Msg.type data) "subscribe_tracking" = false
  /\ is_str (Msg.type data) "location_update" = false
  /\ is_str (Msg.type data) "ping" = false.

(** Entries a completed heartbeat sweep removes: the timed-out ones, and the
    open ones whose ping raises. *)
Definition evicted (p : Probes) (h : Host) (now : Z) (e : WS * TrackingClient) : bool :=
  timed_out now (snd e)
  || (ReadyState_eqb (readyState h (fst e)) OPEN && is_some (ping_raises p (fst e))).

(** The call a completed heartbeat sweep makes on the socket of an entry. *)
Definition heartbeat_call (p : Probes) (h : Host) (now : Z) (e : WS * TrackingClient)
  : list SocketCall :=
  if timed_out now (snd e) then [Close (fst e) None]
  else if ReadyState_eqb (readyState h (fst e)) OPEN
       then [Ping (fst e) (ping_raises p (fst e))]
       else [].

(** The log line and the close of a timed-out entry go through. *)
Definition closes_quietly (p : Probes) (now : Z) (e : WS * TrackingClient) : Prop :=
  timed_out now (snd e) = true ->
  (exists shown, template (userId (snd e)) = Ok shown)
  /\ close_raises p (fst e) = None.

(** The socket a call is made on. *)
Definition call_on (call : SocketCall) : WS :=
  match call with
  | Close k _ | Ping k _ => k
  end.

(** A record as [init] makes it and the other frames leave it: it names the
    socket it is stored under, its userId and role are truthy, its bookingId
    is absent or truthy, and it has a stamp. *)
Definition sound_session (k : WS) (c : TrackingClient) : Prop :=
  ws c = k
  /\ truthy (userId c) = true
  /\ truthy (role c) = true
  /\ (bookingId c = JUndefined \/ truthy (bookingId c) = true)
  /\ exists t, lastPing c = Some t.

Definition sound (m : Registry) : Prop :=
  forall k c, In (k, c) m -> sound_session k c.

(** The registries the program can be in: it starts empty and changes by a
    frame, a close, a stale sweep or a heartbeat sweep (completed or not),
    under any host. *)
Inductive reachable : Registry -> Prop :=
| reach_start : reachable []
| reach_frame (h : Host) (k : WS) (message : Parsed) (m : Registry) :
    reachable m -> reachable (registry (handleMessage k message h m))
| reach_close (h : Host) (k : WS) (m : Registry) :
    reachable m -> reachable (registry (handleClose k h m))
| reach_stale_sweep (h : Host) (m : Registry) :
    reachable m -> reachable (registry (cleanupStaleConnections h m))
| reach_heartbeat (p : Probes) (h : Host) (m : Registry) :
    reachable m -> reachable (sweep_registry (heartbeat p h m)).

(** Deleting every key of [ks], one after the other. *)
Definition delete_all (ks : list WS) (m : Registry) : Registry :=
  fold_left map_delete ks m.

(** ** The registry as a map *)

Section RegistryFacts.

Lemma map_get_delete (m : Registry) (k r : WS) :
  map_get (map_delete m k) r = if Nat.eqb r k then None else map_get m r.
Proof.
  unfold map_delete.
  induction m as [|[k' c] rest IH]; simpl.
  - now destruct (Nat.eqb r k).
  - destruct (Nat.eqb k' k) eqn:Ek; simpl.
    + apply Nat.eqb_eq in Ek; subst k'.
      rewrite IH. destruct (Nat.eqb r k) eqn:Er; [reflexivity|].
      rewrite Nat.eqb_sym, Er. reflexivity.
    + rewrite IH. destruct (Nat.eqb k' r) eqn:Ekr; [|reflexivity].
      apply Nat.eqb_eq in Ekr; subst k'. now rewrite Ek.
Qed.

Lemma map_get_set (m : Registry) (k r : WS) (c : TrackingClient) :
  map_get (map_set m k c) r = if Nat.eqb k r then Some c else map_get m r.
Proof.
  induction m as [|[k' c'] rest IH]; simpl.
  - reflexivity.
  - destruct (Nat.eqb k' k) eqn:Ek; simpl.
    + apply Nat.eqb_eq in Ek; subst k'. now destruct (Nat.eqb k r).
    + rewrite IH. destruct (Nat.eqb k' r) eqn:Ekr; [|reflexivity].
      apply Nat.eqb_eq in Ekr; subst k'.
      rewrite Nat.eqb_sym, Ek. reflexivity.
Qed.

Lemma map_get_mutate (m : Registry) (k r : WS) (f : TrackingClient -> TrackingClient) :
  map_get (map_mutate m k f) r
  = if Nat.eqb k r then option_map f (map_get m k) else map_get m r.
Proof.
  induction m as [|[k' c] rest IH]; simpl.
  - now destruct (Nat.eqb k r).
  - destruct (Nat.eqb k' k) eqn:Ek; simpl.
    + apply Nat.eqb_eq in Ek; subst k'. now destruct (Nat.eqb k r).
    + rewrite IH. destruct (Nat.eqb k' r) eqn:Ekr.
      * apply Nat.eqb_eq in Ekr; subst k'.
        rewrite Nat.eqb_sym, Ek. reflexivity.
      * reflexivity.
Qed.

Lemma keys_mutate (m : Registry) (k : WS) (f : TrackingClient -> TrackingClient) :
  keys (map_mutate m k f) = keys m.
Proof.
  induction m as [|[k' c] rest IH]; simpl; [reflexivity|].
  destruct (Nat.eqb k' k); simpl; [reflexivity|]. now f_equal.
Qed.

Lemma in_keys (m : Registry) (k : WS) (c : TrackingClient) :
  In (k, c) m -> In k (keys m).
Proof. intro H. apply (in_map fst) in H. exact H. Qed.

Lemma map_get_in (m : Registry) (k : WS) (c : TrackingClient) :
  map_get m k = Some c -> In (k, c) m.
Proof.
  induction m as [|[k' c'] rest IH]; simpl; [discriminate|].
  destruct (Nat.eqb k' k) eqn:E.
  - apply Nat.eqb_eq in E. intros [= ->]. left. now subst.
  - intro H. right. auto.
Qed.

Lemma in_map_get (m : Registry) (k : WS) (c : TrackingClient) :
  wf_registry m -> In (k, c) m -> map_get m k = Some c.
Proof.
  unfold wf_registry.
  induction m as [|[k' c'] rest IH]; simpl; [tauto|].
  intros Hnd [Heq | Hin].
  - injection Heq as -> ->. now rewrite Nat.eqb_refl.
  - inversion Hnd as [|? ? Hnot Hrest]; subst.
    destruct (Nat.eqb k' k) eqn:E.
    + apply Nat.eqb_eq in E; subst k'.
      exfalso. apply Hnot. eapply in_keys; eauto.
    + auto.
Qed.

Lemma wf_delete (m : Registry) (k : WS) :
  wf_registry m -> wf_registry (map_delete m k).
Proof.
  unfold wf_registry, map_delete, keys.
  induction m as [|[k' c] rest IH]; simpl; intro Hnd; [constructor|].
  inversion Hnd as [|? ? Hnot Hrest]; subst.
  destruct (Nat.eqb k' k); simpl; auto.
  constructor; auto.
  intro Hin. apply Hnot.
  apply in_map_iff in Hin as [e [He Hf]].
  apply filter_In in Hf as [Hf _].
  apply in_map_iff. eauto.
Qed.

Lemma wf_mutate (m : Registry) (k : WS) (f : TrackingClient -> TrackingClient) :
  wf_registry m -> wf_registry (map_mutate m k f).
Proof. unfold wf_registry. now rewrite keys_mutate. Qed.

Lemma keys_set (m : Registry) (k r : WS) (c : TrackingClient) :
  In r (keys (map_set m k c)) <-> r = k \/ In r (keys m).
Proof.
  induction m as [|[k' c'] rest IH]; simpl.
  - intuition.
  - destruct (Nat.eqb k' k) eqn:E; simpl.
    + apply Nat.eqb_eq in E; subst k'. intuition.
    + rewrite IH. intuition.
Qed.

Lemma wf_set (m : Registry) (k : WS) (c : TrackingClient) :
  wf_registry m -> wf_registry (map_set m k c).
Proof.
  unfold wf_registry.
  induction m as [|[k' c'] rest IH]; simpl; intro Hnd.
  - constructor; [simpl; tauto | constructor].
  - inversion Hnd as [|? ? Hnot Hrest]; subst.
    destruct (Nat.eqb k' k) eqn:E; simpl.
    + apply Nat.eqb_eq in E; subst k'. now constructor.
    + constructor; auto.
      intro Hin. apply keys_set in Hin as [-> | Hin]; [|tauto].
      now rewrite Nat.eqb_refl in E.
Qed.

End RegistryFacts.

Lemma map_get_delete_all (ks : list WS) (m : Registry) (r : WS) :
  map_get (delete_all ks m) r
  = if existsb (Nat.eqb r) ks then None else map_get m r.
Proof.
  unfold delete_all. revert m.
  induction ks as [|k ks IH]; intro m; simpl; [reflexivity|].
  rewrite IH, map_get_delete.
  destruct (Nat.eqb r k); simpl; [|reflexivity].
  now destruct (existsb (Nat.eqb r) ks).
Qed.

Lemma in_delete_all (ks : list WS) (m : Registry) (e : WS * TrackingClient) :
  In e (delete_all ks m) <-> In e m /\ ~ In (fst e) ks.
Proof.
  unfold delete_all. revert m.
  induction ks as [|k ks IH]; intro m; simpl; [tauto|].
  rewrite IH. unfold map_delete. rewrite filter_In.
  rewrite negb_true_iff, Nat.eqb_neq. intuition.
Qed.

(** ** Running the building blocks *)

Lemma handleError_run (k : WS) (error : Text) (h : Host) (m : Registry) :
  handleError k error h m
  = mkRun m
      (if ReadyState_eqb (readyState h k) OPEN
       then [Send k (FError (reported error))
                  (send_raises h k (FError (reported error)))]
       else [])
      (Ok tt).
Proof.
  unfold handleError, bind, ask, catch, send, ret; simpl.
  destruct (ReadyState_eqb (readyState h k) OPEN); simpl; [|reflexivity].
  destruct (send_raises h k _); reflexivity.
Qed.

Lemma broadcast_loop_step (update : Msg.t) (h : Host) (k : WS) (c : TrackingClient)
    (rest : list (WS * TrackingClient)) (m : Registry) :
  broadcast_loop update ((k, c) :: rest) h m
  = let r := broadcast_loop update rest h
               (if dropped update h (k, c) then map_delete m k else m) in
    mkRun (registry r)
          ((if matches update h (k, c) then [attempt update h (k, c)] else [])
           ++ events r)
          (result r).
Proof.
  unfold dropped, matches, attempt, is_some, is_none.
  cbn [broadcast_loop fst snd].
  unfold bind, ask, catch, send, clients_delete, ret.
  cbn [result registry events app].
  destruct (strict_eq (bookingId c) (Msg.bookingId update)
            && ReadyState_eqb (readyState h k) OPEN);
    cbn [result registry events app andb]; [|reflexivity].
  destruct (send_raises h k (FLocationUpdate update));
    cbn [outcome result registry events app negb]; reflexivity.
Qed.

Lemma broadcast_loop_run (update : Msg.t) (h : Host) (l : list (WS * TrackingClient)) :
  forall m,
    broadcast_loop update l h m
    = mkRun (delete_all (keys (filter (dropped update h) l)) m)
            (map (attempt update h) (filter (matches update h) l))
            (Ok tt).
Proof.
  induction l as [|[k c] rest IH]; intro m; [reflexivity|].
  rewrite broadcast_loop_step. cbv zeta. rewrite IH.
  cbn [registry events result filter].
  destruct (dropped update h (k, c)), (matches update h (k, c)); reflexivity.
Qed.

Lemma broadcast_run (update : Msg.t) (h : Host) (m : Registry) :
  broadcastLocationUpdate update h m
  = mkRun (delete_all (keys (filter (dropped update h) m)) m)
          (map (attempt update h) (filter (matches update h) m))
          (Ok tt).
Proof.
  unfold broadcastLocationUpdate, bind, clients_entries.
  cbn [result registry events app]. now rewrite broadcast_loop_run.
Qed.

Lemma cleanup_loop_run (now : Z) (h : Host) (l : list (WS * TrackingClient)) :
  forall m,
    cleanup_loop now l h m
    = mkRun (delete_all (keys (filter (stale h now) l)) m) [] (Ok tt).
Proof.
  induction l as [|[k c] rest IH]; intro m; [reflexivity|].
  cbn [cleanup_loop filter].
  unfold bind, ask. cbn [result registry events app].
  destruct (stale h now (k, c));
    unfold clients_delete, ret;
    cbn [result registry events app keys map delete_all fold_left fst];
    rewrite IH; reflexivity.
Qed.

Lemma cleanup_run (h : Host) (m : Registry) :
  cleanupStaleConnections h m
  = mkRun (delete_all (keys (filter (stale h (Date_now h)) m)) m) [] (Ok tt).
Proof.
  unfold cleanupStaleConnections, bind, ask, clients_entries.
  cbn [result registry events app]. now rewrite cleanup_loop_run.
Qed.

(** An entry whose key is among the keys of the filtered list, in a registry
    that holds each key once, passes the filter itself. *)
Lemma key_filtered (p : WS * TrackingClient -> bool) (m : Registry)
    (k : WS) (c : TrackingClient) :
  wf_registry m -> In (k, c) m -> In k (keys (filter p m)) -> p (k, c) = true.
Proof.
  intros Hwf Hin Hk.
  apply in_map_iff in Hk as [[k' c'] [Hfst Hf]]. simpl in Hfst; subst k'.
  apply filter_In in Hf as [Hin' Hp].
  apply (in_map_get _ _ _ Hwf) in Hin.
  apply (in_map_get _ _ _ Hwf) in Hin'.
  congruence.
Qed.

Lemma filtered_key (p : WS * TrackingClient -> bool) (m : Registry)
    (k : WS) (c : TrackingClient) :
  In (k, c) m -> p (k, c) = true -> In k (keys (filter p m)).
Proof.
  intros Hin Hp. apply in_map_iff. exists (k, c). split; [reflexivity|].
  apply filter_In. auto.
Qed.

Lemma ReadyState_eqb_eq (a b : ReadyState) :
  ReadyState_eqb a b = true <-> a = b.
Proof. destruct a, b; simpl; split; congruence. Qed.

(** ** The broadcast router *)

Lemma matches_spec (update : Msg.t) (h : Host) (k : WS) (c : TrackingClient) :
  matches update h (k, c) = true
  <-> strict_eq (bookingId c) (Msg.bookingId update) = true /\ readyState h k = OPEN.
Proof.
  unfold matches; simpl. now rewrite andb_true_iff, ReadyState_eqb_eq.
Qed.

Lemma broadcast_events (update : Msg.t) (h : Host) (m : Registry) (ev : Event) :
  In ev (events (broadcastLocationUpdate update h m))
  <-> exists k c, In (k, c) m /\ matches update h (k, c) = true
                  /\ ev = attempt update h (k, c).
Proof.
  rewrite broadcast_run. cbn [events]. rewrite in_map_iff. split.
  - intros [[k c] [Hev Hin]]. apply filter_In in Hin as [Hin Hm]. eauto.
  - intros [k [c [Hin [Hm Hev]]]]. exists (k, c). split; [auto|].
    apply filter_In. auto.
Qed.

Lemma broadcast_keeps (update : Msg.t) (h : Host) (m : Registry)
    (k : WS) (c : TrackingClient) :
  wf_registry m -> In (k, c) m -> dropped update h (k, c) = false ->
  map_get (registry (broadcastLocationUpdate update h m)) k = Some c.
Proof.
  intros Hwf Hin Hd. rewrite broadcast_run. cbn [registry].
  rewrite map_get_delete_all.
  destruct (existsb (Nat.eqb k) (keys (filter (dropped update h) m))) eqn:E.
  - apply existsb_exists in E as [k' [Hk' Heq]].
    apply Nat.eqb_eq in Heq; subst k'.
    apply (key_filtered _ _ _ _ Hwf Hin) in Hk'. congruence.
  - now apply in_map_get.
Qed.

Lemma broadcast_drops (update : Msg.t) (h : Host) (m : Registry)
    (k : WS) (c : TrackingClient) :
  In (k, c) m -> dropped update h (k, c) = true ->
  map_get (registry (broadcastLocationUpdate update h m)) k = None.
Proof.
  intros Hin Hd. rewrite broadcast_run. cbn [registry].
  rewrite map_get_delete_all.
  replace (existsb (Nat.eqb k) (keys (filter (dropped update h) m))) with true;
    [reflexivity|].
  symmetry. apply existsb_exists. exists k. split; [|apply Nat.eqb_refl].
  eapply filtered_key; eauto.
Qed.

(** C6.  A broadcast hands the update to a socket exactly when the registry
    holds a session for it whose bookingId is strictly equal to the sample's
    and whose socket is open, and it does nothing else.  In particular, with
    an open session A on booking 5 and an open session B on booking 9, a
    sample for booking 5 is handed to A and nothing is handed to B. *)
Theorem broadcast_reaches_exactly_the_subscribers
    (h : Host) (m : Registry) (update : Msg.t) :
  wf_registry m ->
  (forall r,
      (exists ev, In ev (events (broadcastLocationUpdate update h m))
                  /\ update_sent_to r ev)
      <-> (exists c, map_get m r = Some c
                     /\ strict_eq (bookingId c) (Msg.bookingId update) = true
                     /\ readyState h r = OPEN))
  /\ (forall ev, In ev (events (broadcastLocationUpdate update h m)) ->
                 exists r, ev = Send r (FLocationUpdate update)
                                     (send_raises h r (FLocationUpdate update)))
  /\ (forall a b ca cb,
         map_get m a = Some ca -> map_get m b = Some cb ->
         bookingId ca = num 5 -> bookingId cb = num 9 ->
         Msg.bookingId update = num 5 ->
         readyState h a = OPEN -> readyState h b = OPEN ->
         In (Send a (FLocationUpdate update)
                  (send_raises h a (FLocationUpdate update)))
            (events (broadcastLocationUpdate update h m))
         /\ forall ev, In ev (events (broadcastLocationUpdate update h m)) ->
                       ~ update_sent_to b ev).
Proof.
  intro Hwf.
  assert (Hiff : forall r,
      (exists ev, In ev (events (broadcastLocationUpdate update h m))
                  /\ update_sent_to r ev)
      <-> (exists c, map_get m r = Some c
                     /\ strict_eq (bookingId c) (Msg.bookingId update) = true
                     /\ readyState h r = OPEN)).
  { intro r. split.
    - intros [ev [Hin [data [raised Hev]]]].
      apply broadcast_events in Hin as [k [c [Hkc [Hm Hat]]]].
      unfold attempt in Hat. simpl in Hat. rewrite Hat in Hev.
      injection Hev as -> _ _.
      apply matches_spec in Hm as [Hb Ho].
      exists c. auto using in_map_get.
    - intros [c [Hget [Hb Ho]]].
      exists (attempt update h (r, c)). split.
      + apply broadcast_events. exists r, c.
        repeat split; [now apply map_get_in | now apply matches_spec].
      + unfold attempt, update_sent_to. simpl. eauto. }
  split; [exact Hiff|]. split.
  - intros ev Hin.
    apply broadcast_events in Hin as [k [c [_ [_ ->]]]].
    exists k. reflexivity.
  - intros a b ca cb Ha Hb Hca Hcb Hu Hoa Hob. split.
    + apply broadcast_events. exists a, ca.
      repeat split; [now apply map_get_in|].
      apply matches_spec. rewrite Hca, Hu. split; [reflexivity | exact Hoa].
    + intros ev Hin Hsent.
      destruct (proj1 (Hiff b)) as [c [Hget [Heq _]]]; [eauto|].
      rewrite Hb in Hget. injection Hget as <-.
      rewrite Hcb, Hu in Heq. discriminate Heq.
Qed.

Lemma broadcast_reaches_exactly_the_subscribers_witness :
  In (Send 2%nat (FLocationUpdate sample5) None)
     (events (broadcastLocationUpdate sample5 (calm 1000)
                [(2%nat, passenger 2 5 10); (3%nat, passenger 3 9 10)]))
  /\ forall ev,
       In ev (events (broadcastLocationUpdate sample5 (calm 1000)
                        [(2%nat, passenger 2 5 10); (3%nat, passenger 3 9 10)])) ->
       ~ update_sent_to 3%nat ev.
Proof.
  assert (Hwf : wf_registry [(2%nat, passenger 2 5 10); (3%nat, passenger 3 9 10)]).
  { unfold wf_registry; simpl. repeat constructor; simpl; intuition discriminate. }
  exact (proj2 (proj2 (broadcast_reaches_exactly_the_subscribers
                         (calm 1000) _ sample5 Hwf))
           2%nat 3%nat (passenger 2 5 10) (passenger 3 9 10)
           eq_refl eq_refl eq_refl eq_refl eq_refl eq_refl eq_refl).
Defined.

(** C7.  When the send to one subscribed recipient raises, the broadcast
    itself does not raise, that recipient's session is gone from the registry
    afterwards, and every other subscribed recipient with an open socket that
    accepts the frame has received it and keeps its session. *)
Theorem broadcast_survives_a_failed_send
    (h : Host) (m : Registry) (update : Msg.t)
    (r : WS) (c : TrackingClient) (e : Text) :
  wf_registry m ->
  In (r, c) m ->
  strict_eq (bookingId c) (Msg.bookingId update) = true ->
  readyState h r = OPEN ->
  send_raises h r (FLocationUpdate update) = Some e ->
  result (broadcastLocationUpdate update h m) = Ok tt
  /\ map_get (registry (broadcastLocationUpdate update h m)) r = None
  /\ forall r' c',
       In (r', c') m ->
       strict_eq (bookingId c') (Msg.bookingId update) = true ->
       readyState h r' = OPEN ->
       send_raises h r' (FLocationUpdate update) = None ->
       In (Send r' (FLocationUpdate update) None)
          (events (broadcastLocationUpdate update h m))
       /\ map_get (registry (broadcastLocationUpdate update h m)) r' = Some c'.
Proof.
  intros Hwf Hin Hb Ho He. split; [|split].
  - now rewrite broadcast_run.
  - apply (broadcast_drops update h m r c Hin).
    unfold dropped. rewrite (proj2 (matches_spec update h r c) (conj Hb Ho)).
    simpl. now rewrite He.
  - intros r' c' Hin' Hb' Ho' He'. split.
    + apply broadcast_events. exists r', c'.
      repeat split; [exact Hin' | now apply matches_spec |].
      unfold attempt; simpl. now rewrite He'.
    + apply broadcast_keeps; auto.
      unfold dropped; simpl. rewrite He'. apply andb_false_r.
Qed.

Lemma broadcast_survives_a_failed_send_witness :
  result (broadcastLocationUpdate sample5 (flaky 2 1000)
            [(2%nat, passenger 2 5 10); (3%nat, passenger 3 5 10)]) = Ok tt
  /\ map_get (registry (broadcastLocationUpdate sample5 (flaky 2 1000)
                [(2%nat, passenger 2 5 10); (3%nat, passenger 3 5 10)])) 2%nat = None
  /\ In (Send 3%nat (FLocationUpdate sample5) None)
        (events (broadcastLocationUpdate sample5 (flaky 2 1000)
                   [(2%nat, passenger 2 5 10); (3%nat, passenger 3 5 10)])).
Proof.
  assert (Hwf : wf_registry [(2%nat, passenger 2 5 10); (3%nat, passenger 3 5 10)]).
  { unfold wf_registry; simpl. repeat constructor; simpl; intuition discriminate. }
  destruct (broadcast_survives_a_failed_send (flaky 2 1000)
              [(2%nat, passenger 2 5 10); (3%nat, passenger 3 5 10)] sample5
              2%nat (passenger 2 5 10) (Lit "write EPIPE")
              Hwf (or_introl eq_refl) eq_refl eq_refl eq_refl)
    as [Hres [Hgone Hrest]].
  split; [exact Hres|]. split; [exact Hgone|].
  exact (proj1 (Hrest 3%nat (passenger 3 5 10)
                  (or_intror (or_introl eq_refl)) eq_refl eq_refl eq_refl)).
Defined.

(** C2 as the specification words it fails: a subscriber of booking 5 whose
    socket is closed is still in the registry after a broadcast for
    booking 5. *)
Lemma broadcast_evicts_closed_fails :
  ~ broadcast_evicts_closed (hung_up 2 1000)
      [(2%nat, passenger 2 5 10); (3%nat, passenger 3 5 10)] sample5.
Proof.
  intro H.
  specialize (H 2%nat (passenger 2 5 10) (or_introl eq_refl) eq_refl).
  simpl in H. discriminate H. discriminate.
Qed.

(** C2, as the code has it.  A session whose socket is not open is passed
    over by the broadcast: nothing is sent to it and its entry stays in the
    registry, whatever its bookingId.  The broadcast removes a session only
    when the send to it raises. *)
Theorem broadcast_passes_over_closed_sockets
    (h : Host) (m : Registry) (update : Msg.t) (r : WS) (c : TrackingClient) :
  In (r, c) m ->
  readyState h r <> OPEN ->
  In (r, c) (registry (broadcastLocationUpdate update h m))
  /\ (forall frame raised,
         ~ In (Send r frame raised) (events (broadcastLocationUpdate update h m)))
  /\ (forall r' c',
         In (r', c') m ->
         ~ In (r', c') (registry (broadcastLocationUpdate update h m)) ->
         exists c'' e,
           In (r', c'') m
           /\ strict_eq (bookingId c'') (Msg.bookingId update) = true
           /\ readyState h r' = OPEN
           /\ send_raises h r' (FLocationUpdate update) = Some e).
Proof.
  intros Hin Hclosed.
  assert (Hnot : forall c0, matches update h (r, c0) = false).
  { intro c0. destruct (matches update h (r, c0)) eqn:E; [|reflexivity].
    apply matches_spec in E as [_ Ho]. contradiction. }
  split; [|split].
  - rewrite broadcast_run. cbn [registry].
    apply in_delete_all. split; [exact Hin|]. simpl.
    intro Hk. apply in_map_iff in Hk as [[k' c0] [Hfst Hf]].
    simpl in Hfst; subst k'.
    apply filter_In in Hf as [_ Hd]. unfold dropped in Hd.
    rewrite Hnot in Hd. discriminate Hd.
  - intros frame raised Hev.
    apply broadcast_events in Hev as [k [c0 [_ [Hm Hat]]]].
    unfold attempt in Hat; simpl in Hat. injection Hat as <- _ _.
    rewrite Hnot in Hm. discriminate Hm.
  - intros r' c' Hin' Hgone.
    rewrite broadcast_run in Hgone. cbn [registry] in Hgone.
    rewrite in_delete_all in Hgone. simpl in Hgone.
    destruct (in_dec Nat.eq_dec r' (keys (filter (dropped update h) m)))
      as [Hk | Hk]; [|tauto].
    apply in_map_iff in Hk as [[k' c''] [Hfst Hf]]. simpl in Hfst; subst k'.
    apply filter_In in Hf as [Hin'' Hd]. unfold dropped in Hd.
    apply andb_true_iff in Hd as [Hm Hs].
    apply matches_spec in Hm as [Hb Ho]. simpl in Hs.
    destruct (send_raises h r' (FLocationUpdate update)) as [e|] eqn:E;
      [|discriminate Hs].
    exists c'', e. auto.
Qed.

Lemma broadcast_passes_over_closed_sockets_witness :
  In (2%nat, passenger 2 5 10)
     (registry (broadcastLocationUpdate sample5 (hung_up 2 1000)
                  [(2%nat, passenger 2 5 10); (3%nat, passenger 3 5 10)]))
  /\ forall frame raised,
       ~ In (Send 2%nat frame raised)
            (events (broadcastLocationUpdate sample5 (hung_up 2 1000)
                       [(2%nat, passenger 2 5 10); (3%nat, passenger 3 5 10)])).
Proof.
  assert (Hclosed : readyState (hung_up 2 1000) 2%nat <> OPEN)
    by (simpl; discriminate).
  destruct (broadcast_passes_over_closed_sockets (hung_up 2 1000)
              [(2%nat, passenger 2 5 10); (3%nat, passenger 3 5 10)] sample5
              2%nat (passenger 2 5 10) (or_introl eq_refl) Hclosed)
    as [Hstays [Hquiet _]].
  split; [exact Hstays | exact Hquiet].
Defined.

(** ** The stale sweep *)

Lemma stale_false (h : Host) (now : Z) (k : WS) (c : TrackingClient) :
  stale h now (k, c) = false ->
  readyState h k <> CLOSED
  /\ readyState h k <> CLOSING
  /\ (lastPing_truthy c = true ->
      forall t, lastPing c = Some t -> now - t <= STALE_TIMEOUT).
Proof.
  unfold stale; simpl. intro H.
  apply orb_false_iff in H as [H Hage].
  apply orb_false_iff in H as [Hclosed Hclosing].
  split; [|split].
  - intro E. rewrite E in Hclosed. discriminate Hclosed.
  - intro E. rewrite E in Hclosing. discriminate Hclosing.
  - intros Ht t Hlp. rewrite Ht, Hlp in Hage. simpl in Hage.
    destruct (now - t >? STALE_TIMEOUT) eqn:E; [discriminate|].
    rewrite Z.gtb_ltb in E. apply Z.ltb_ge in E. exact E.
Qed.

(** C8.  After one pass of the stale sweep over a registry whose sessions
    carry their liveness stamp, no remaining session has a socket that is
    closed or closing, and none has a stamp older than the 120000 ms
    threshold; the state of the socket plays no part in the second test, so
    an open socket does not save an old session. *)
Theorem stale_sweep_leaves_no_stale_session
    (h : Host) (m : Registry) (k : WS) (c : TrackingClient) :
  stamped m ->
  In (k, c) (registry (cleanupStaleConnections h m)) ->
  readyState h k <> CLOSED
  /\ readyState h k <> CLOSING
  /\ exists t, lastPing c = Some t /\ Date_now h - t <= 120000.
Proof.
  intros Hst Hin.
  rewrite cleanup_run in Hin. cbn [registry] in Hin.
  apply in_delete_all in Hin as [Hin Hk]. simpl in Hk.
  assert (Hs : stale h (Date_now h) (k, c) = false).
  { destruct (stale h (Date_now h) (k, c)) eqn:E; [|reflexivity].
    exfalso. apply Hk. eapply filtered_key; eauto. }
  apply stale_false in Hs as [Hclosed [Hclosing Hage]].
  split; [exact Hclosed|]. split; [exact Hclosing|].
  pose proof (Hst k c Hin) as Ht.
  unfold lastPing_truthy in Ht.
  destruct (lastPing c) as [t|] eqn:Elp; [|discriminate Ht].
  exists t. split; [reflexivity|].
  apply Hage; [|reflexivity].
  unfold lastPing_truthy. now rewrite Elp.
Qed.

Lemma stale_sweep_leaves_no_stale_session_witness :
  readyState (calm 1000000) 3%nat <> CLOSED
  /\ readyState (calm 1000000) 3%nat <> CLOSING
  /\ exists t, lastPing (passenger 3 5 900000) = Some t
               /\ Date_now (calm 1000000) - t <= 120000.
Proof.
  apply (stale_sweep_leaves_no_stale_session (calm 1000000)
           [(2%nat, passenger 2 5 10); (3%nat, passenger 3 5 900000)]).
  - intros k c [H | [H | []]]; injection H as <- <-; reflexivity.
  - simpl. left. reflexivity.
Defined.

(** The sweep in the witness above did remove the old session on socket 2,
    whose socket is open. *)
Example stale_sweep_removes_old_open_session :
  registry (cleanupStaleConnections (calm 1000000)
              [(2%nat, passenger 2 5 10); (3%nat, passenger 3 5 900000)])
  = [(3%nat, passenger 3 5 900000)].
Proof. reflexivity. Qed.

(** ** Running the message handler *)

Lemma catch_run {A} (c : M A) (handler : Text -> M A) (h : Host) (m : Registry) :
  catch c handler h m
  = match result (c h m) with
    | Ok a => c h m
    | Throw e =>
        mkRun (registry (handler e h (registry (c h m))))
              (events (c h m) ++ events (handler e h (registry (c h m))))
              (result (handler e h (registry (c h m))))
    end.
Proof. reflexivity. Qed.

Lemma run_eta {A} (r : Run A) : mkRun (registry r) (events r) (result r) = r.
Proof. now destruct r. Qed.

(** A step that neither emits nor throws hands its value on. *)
Lemma bind_pure {A B} (c : M A) (k : A -> M B) (h : Host) (m m' : Registry) (a : A) :
  c h m = mkRun m' [] (Ok a) -> bind c k h m = k a h m'.
Proof. intro H. unfold bind. rewrite H. cbn [result registry events app]. apply run_eta. Qed.

Lemma bind_ask {A B} (f : Host -> A) (k : A -> M B) (h : Host) (m : Registry) :
  bind (ask f) k h m = k (f h) h m.
Proof. now apply bind_pure. Qed.

Lemma bind_mutate {B} (w : WS) (f : TrackingClient -> TrackingClient)
    (k : unit -> M B) (h : Host) (m : Registry) :
  bind (clients_mutate w f) k h m = k tt h (map_mutate m w f).
Proof. now apply bind_pure. Qed.

Lemma bind_lift {A B} (r : Result A) (k : A -> M B) (h : Host) (m : Registry) :
  bind (lift r) k h m
  = match r with
    | Ok a => k a h m
    | Throw e => mkRun m [] (Throw e)
    end.
Proof. destruct r as [a|e]; [now apply bind_pure | reflexivity]. Qed.

(** A step that emits one event and throws when the host says so. *)
Lemma bind_effect {B} (c : M unit) (ev : option Text -> Event)
    (raised : option Text) (k : unit -> M B) (h : Host) (m : Registry) :
  c h m = mkRun m [ev raised] (outcome raised) ->
  bind c k h m
  = match raised with
    | Some e => mkRun m [ev (Some e)] (Throw e)
    | None => mkRun (registry (k tt h m)) (ev None :: events (k tt h m))
                    (result (k tt h m))
    end.
Proof.
  intro H. unfold bind. rewrite H. cbn [result registry events].
  destruct raised; reflexivity.
Qed.

Lemma bind_assoc {A B C} (c : M A) (k : A -> M B) (k' : B -> M C)
    (h : Host) (m : Registry) :
  bind (bind c k) k' h m = bind c (fun a => bind (k a) k') h m.
Proof.
  unfold bind. destruct (c h m) as [m1 ev1 [a|e]]; cbn [result registry events];
    [|reflexivity].
  destruct (k a h m1) as [m2 ev2 [b|e]]; cbn [result registry events];
    [|reflexivity].
  now rewrite app_assoc.
Qed.

(** Past the two guards the handler is the [try] block around the [switch]. *)
Lemma handleMessage_dispatch (k : WS) (data : Msg.t) (h : Host) (m : Registry) :
  truthy (Msg.type data) = true ->
  is_none (map_get m k) && negb (is_str (Msg.type data) "init") = false ->
  handleMessage k (ParsedData data) h m
  = catch (dispatch k (map_get m k) data) (fun error => handleError k error) h m.
Proof.
  intros Ht Hg. unfold handleMessage. rewrite Ht. cbn [negb].
  unfold bind at 1, clients_get. cbn [result registry events].
  rewrite Hg.
  destruct (catch (dispatch k (map_get m k) data)
                  (fun error => handleError k error) h m); reflexivity.
Qed.

Lemma handleMessage_not_initialized (k : WS) (data : Msg.t) (h : Host) (m : Registry) :
  truthy (Msg.type data) = true ->
  map_get m k = None ->
  is_str (Msg.type data) "init" = false ->
  handleMessage k (ParsedData data) h m
  = handleError k "Client not initialized" h m.
Proof.
  intros Ht Hc Hi. unfold handleMessage. rewrite Ht. cbn [negb].
  unfold bind at 1, clients_get. cbn [result registry events].
  rewrite Hc, Hi. cbn [is_none negb andb].
  rewrite handleError_run. reflexivity.
Qed.

Lemma is_str_truthy (v : JsVal) (s : string) :
  is_str v s = true -> s <> "" -> truthy v = true.
Proof.
  unfold is_str. destruct v; simpl; try discriminate.
  intros H Hs. apply String.eqb_eq in H. subst s0.
  destruct s; [contradiction|reflexivity].
Qed.

Lemma is_str_exclusive (v : JsVal) (s s' : string) :
  is_str v s = true -> s <> s' -> is_str v s' = false.
Proof.
  unfold is_str. destruct v; simpl; try discriminate.
  intros H Hs. apply String.eqb_eq in H. subst s0.
  now apply String.eqb_neq.
Qed.

Lemma handle_init_run (k : WS) (data : Msg.t) (h : Host) (m : Registry) :
  handle_init k data h m
  = if truthy (Msg.userId data) && truthy (Msg.role data)
    then mkRun (map_set m k (mkClient k JUndefined (Msg.userId data)
                                      (Msg.role data) (Some (Date_now h))))
               [Send k FInitSuccess (send_raises h k FInitSuccess)]
               (outcome (send_raises h k FInitSuccess))
    else mkRun m [] (Throw "userId and role are required for initialization").
Proof.
  unfold handle_init.
  destruct (truthy (Msg.userId data)), (truthy (Msg.role data)); reflexivity.
Qed.

Lemma handle_subscribe_run (k : WS) (c : TrackingClient) (data : Msg.t)
    (h : Host) (m : Registry) :
  handle_subscribe k (Some c) data h m
  = if truthy (Msg.bookingId data)
    then mkRun (map_mutate (map_mutate m k (set_bookingId (Msg.bookingId data)))
                           k (set_lastPing (Date_now h)))
               [Send k (FSubscribeSuccess (Msg.bookingId data))
                     (send_raises h k (FSubscribeSuccess (Msg.bookingId data)))]
               (outcome (send_raises h k (FSubscribeSuccess (Msg.bookingId data))))
    else mkRun m [] (Throw "bookingId is required for tracking subscription").
Proof.
  unfold handle_subscribe.
  destruct (truthy (Msg.bookingId data)); reflexivity.
Qed.

Lemma handle_ping_run (k : WS) (c : TrackingClient) (h : Host) (m : Registry) :
  handle_ping k (Some c) h m
  = mkRun (map_mutate m k (set_lastPing (Date_now h)))
          [Send k FPong (send_raises h k FPong)]
          (outcome (send_raises h k FPong)).
Proof. reflexivity. Qed.

(** The registry after a [try] block whose handler is [handleError] is the
    registry the block left. *)
Lemma catch_handleError_registry (k : WS) (c : M unit) (h : Host) (m : Registry) :
  registry (catch c (fun error => handleError k error) h m) = registry (c h m).
Proof.
  rewrite catch_run. destruct (result (c h m)); [reflexivity|].
  rewrite handleError_run. reflexivity.
Qed.

Lemma catch_handleError_result (k : WS) (c : M unit) (h : Host) (m : Registry) :
  result (catch c (fun error => handleError k error) h m) = Ok tt.
Proof.
  rewrite catch_run. destruct (result (c h m)) as [[]|e] eqn:E.
  - exact E.
  - rewrite handleError_run. reflexivity.
Qed.

Lemma catch_handleError_events (k : WS) (c : M unit) (h : Host) (m : Registry) :
  events (catch c (fun error => handleError k error) h m)
  = (events (c h m)
     ++ match result (c h m) with
        | Ok _ => []
        | Throw e => events (handleError k e h (registry (c h m)))
        end)%list.
Proof.
  rewrite catch_run. destruct (result (c h m)); [|reflexivity].
  now rewrite app_nil_r.
Qed.

(** ** The handler on sample frames *)

Example frame_without_type :
  handleMessage 1%nat (ParsedData Msg.empty) (calm 1000) []
  = mkRun [] [Send 1%nat (FError "Message type is required") None] (Ok tt).
Proof. reflexivity. Qed.

Example frame_not_json :
  handleMessage 1%nat ParseError (calm 1000) []
  = mkRun [] [Send 1%nat (FError "Invalid JSON message") None] (Ok tt).
Proof. reflexivity. Qed.

Example frame_of_unknown_type :
  events (handleMessage 1%nat
            (ParsedData (Msg.mk (JStr "hello") JUndefined JUndefined JUndefined
                                JUndefined JUndefined JUndefined JUndefined))
            (calm 1000) [(1%nat, driver 1 10)])
  = [Send 1%nat (FError (Cat "Unknown message type: " "hello")) None].
Proof. reflexivity. Qed.

Example ping_is_answered :
  handleMessage 1%nat (ParsedData msg_ping) (calm 1000) [(1%nat, driver 1 10)]
  = mkRun [(1%nat, driver 1 1000)] [Send 1%nat FPong None] (Ok tt).
Proof. reflexivity. Qed.

Example location_is_stored_and_fanned_out :
  events (handleMessage 1%nat (ParsedData sample5) (calm 1000)
            [(1%nat, driver 1 10); (2%nat, passenger 2 5 10);
             (3%nat, passenger 3 9 10)])
  = [Insert (Db.mkRow (num 5) (Dec 1.5) (Dec 2) None None "active") None;
     Update (Db.mkUpdate (Dec 1.5) (Dec 2) 1000 (num 5)) None;
     Send 2%nat (FLocationUpdate sample5) None].
Proof. reflexivity. Qed.

Example close_forgets_the_session :
  registry (handleClose 2%nat (calm 1000)
              [(1%nat, driver 1 10); (2%nat, passenger 2 5 10)])
  = [(1%nat, driver 1 10)].
Proof. reflexivity. Qed.

(** ** The session state machine *)

Example positive_integer_3 : positive_integer (num 3) = true.
Proof. reflexivity. Qed.

Example positive_integer_half : positive_integer (num 1.5) = false.
Proof. reflexivity. Qed.

Example positive_integer_minus_1 : positive_integer (num (-1)) = false.
Proof. reflexivity. Qed.

(** C4.  A frame with a type other than [init], arriving on a socket that has
    no session, is answered like [handleError] answers "Client not
    initialized": one error frame to that socket when it is open, nothing
    else, and the registry is the one before. *)
Theorem uninitialized_socket_is_refused
    (h : Host) (m : Registry) (k : WS) (data : Msg.t) :
  map_get m k = None ->
  truthy (Msg.type data) = true ->
  is_str (Msg.type data) "init" = false ->
  handleMessage k (ParsedData data) h m
  = handleError k "Client not initialized" h m
  /\ registry (handleMessage k (ParsedData data) h m) = m
  /\ result (handleMessage k (ParsedData data) h m) = Ok tt
  /\ (readyState h k = OPEN ->
      events (handleMessage k (ParsedData data) h m)
      = [Send k (FError "Client not initialized")
              (send_raises h k (FError "Client not initialized"))])
  /\ (readyState h k <> OPEN ->
      events (handleMessage k (ParsedData data) h m) = []).
Proof.
  intros Hc Ht Hi.
  rewrite (handleMessage_not_initialized k data h m Ht Hc Hi).
  rewrite handleError_run. cbn [registry events result].
  change (reported "Client not initialized") with (Lit "Client not initialized").
  repeat split.
  - intro Ho. now rewrite Ho.
  - intro Ho. destruct (readyState h k); try reflexivity. contradiction.
Qed.

Lemma uninitialized_socket_is_refused_witness :
  handleMessage 1%nat (ParsedData (msg_subscribe (num 5))) (calm 1000)
                [(2%nat, passenger 2 5 10)]
  = mkRun [(2%nat, passenger 2 5 10)]
          [Send 1%nat (FError "Client not initialized") None]
          (Ok tt).
Proof.
  rewrite (proj1 (uninitialized_socket_is_refused (calm 1000)
                    [(2%nat, passenger 2 5 10)] 1%nat (msg_subscribe (num 5))
                    eq_refl eq_refl eq_refl)).
  reflexivity.
Defined.

Lemma init_dispatch (k : WS) (data : Msg.t) (h : Host) (m : Registry) :
  is_str (Msg.type data) "init" = true ->
  handleMessage k (ParsedData data) h m
  = catch (handle_init k data) (fun error => handleError k error) h m.
Proof.
  intro Hi. rewrite handleMessage_dispatch.
  - unfold dispatch. now rewrite Hi.
  - apply (is_str_truthy _ _ Hi). discriminate.
  - rewrite Hi. apply andb_false_r.
Qed.

(** C5 as the specification words it fails: an [init] with userId -1 goes
    through. *)
Lemma init_needs_positive_integer_fails :
  ~ init_needs_positive_integer (calm 1000) [] 1%nat
      (msg_init (num (-1)) (JStr "driver")).
Proof.
  intros [Hsound _].
  assert (Hok : init_succeeded (calm 1000) [] 1%nat
                  (msg_init (num (-1)) (JStr "driver"))).
  { split; [reflexivity|]. exists None. simpl. left. reflexivity. }
  destruct (Hsound Hok) as [Hpos _]. discriminate Hpos.
Qed.

(** C5, as the code has it.  An [init] goes through exactly when userId and
    role are both truthy.  Then the record of the socket is created or
    replaced by one with the given userId and role, the clock reading as
    liveness stamp and no bookingId, and [init_success] is handed to the
    socket.  Otherwise the frame is answered like [handleError] answers
    "userId and role are required for initialization", which leaves the
    registry as it was. *)
Theorem init_succeeds_iff_fields_truthy
    (h : Host) (m : Registry) (k : WS) (data : Msg.t) :
  is_str (Msg.type data) "init" = true ->
  (init_succeeded h m k data
   <-> truthy (Msg.userId data) = true /\ truthy (Msg.role data) = true)
  /\ (truthy (Msg.userId data) = true -> truthy (Msg.role data) = true ->
      registry (handleMessage k (ParsedData data) h m)
      = map_set m k (mkClient k JUndefined (Msg.userId data) (Msg.role data)
                              (Some (Date_now h)))
      /\ exists rest,
           events (handleMessage k (ParsedData data) h m)
           = Send k FInitSuccess (send_raises h k FInitSuccess) :: rest)
  /\ (truthy (Msg.userId data) && truthy (Msg.role data) = false ->
      handleMessage k (ParsedData data) h m
      = handleError k "userId and role are required for initialization" h m
      /\ registry (handleMessage k (ParsedData data) h m) = m).
Proof.
  intro Hi.
  assert (Hyes : truthy (Msg.userId data) = true -> truthy (Msg.role data) = true ->
      registry (handleMessage k (ParsedData data) h m)
      = map_set m k (mkClient k JUndefined (Msg.userId data) (Msg.role data)
                              (Some (Date_now h)))
      /\ exists rest,
           events (handleMessage k (ParsedData data) h m)
           = Send k FInitSuccess (send_raises h k FInitSuccess) :: rest).
  { intros Hu Hr. rewrite (init_dispatch k data h m Hi). split.
    - rewrite catch_handleError_registry, handle_init_run, Hu, Hr. reflexivity.
    - rewrite catch_handleError_events, handle_init_run, Hu, Hr.
      cbn [andb events result]. eexists. reflexivity. }
  assert (Hno : truthy (Msg.userId data) && truthy (Msg.role data) = false ->
      handleMessage k (ParsedData data) h m
      = handleError k "userId and role are required for initialization" h m
      /\ registry (handleMessage k (ParsedData data) h m) = m).
  { intro Hf. rewrite (init_dispatch k data h m Hi).
    rewrite catch_run, handle_init_run, Hf. cbn [result registry events app].
    rewrite handleError_run. split; reflexivity. }
  split; [|split; assumption].
  split.
  - intros [_ [raised Hsent]].
    destruct (truthy (Msg.userId data) && truthy (Msg.role data)) eqn:E.
    + apply andb_true_iff in E. exact E.
    + exfalso. destruct (Hno eq_refl) as [Hrun _].
      rewrite Hrun, handleError_run in Hsent. cbn [events] in Hsent.
      destruct (ReadyState_eqb (readyState h k) OPEN); simpl in Hsent.
      * destruct Hsent as [Hsent | []]. discriminate Hsent.
      * exact Hsent.
  - intros [Hu Hr]. destruct (Hyes Hu Hr) as [Hreg [rest Hev]].
    split.
    + rewrite Hreg, map_get_set, Nat.eqb_refl. reflexivity.
    + exists (send_raises h k FInitSuccess). rewrite Hev. left. reflexivity.
Qed.

Lemma init_succeeds_iff_fields_truthy_witness :
  init_succeeded (calm 1000) [] 1%nat (msg_init (num (-1)) (JStr "driver"))
  <-> truthy (num (-1)) = true /\ truthy (JStr "driver") = true.
Proof.
  exact (proj1 (init_succeeds_iff_fields_truthy (calm 1000) [] 1%nat
                  (msg_init (num (-1)) (JStr "driver")) eq_refl)).
Defined.

(** C10.  A valid [init] on a socket whose session is subscribed replaces the
    whole record: the new one has the userId and role of the frame, the clock
    reading as liveness stamp and no bookingId.  Nothing tells the client
    that the subscription is gone: the only frame of the run that is not an
    error report is [init_success].  The other sessions are untouched. *)
Theorem reinit_discards_subscription
    (h : Host) (m : Registry) (k : WS) (c : TrackingClient) (data : Msg.t) :
  map_get m k = Some c ->
  truthy (bookingId c) = true ->
  is_str (Msg.type data) "init" = true ->
  truthy (Msg.userId data) = true ->
  truthy (Msg.role data) = true ->
  map_get (registry (handleMessage k (ParsedData data) h m)) k
  = Some (mkClient k JUndefined (Msg.userId data) (Msg.role data)
                   (Some (Date_now h)))
  /\ (forall c', map_get (registry (handleMessage k (ParsedData data) h m)) k
                 = Some c' -> bookingId c' = JUndefined)
  /\ (forall r, r <> k ->
                map_get (registry (handleMessage k (ParsedData data) h m)) r
                = map_get m r)
  /\ (send_raises h k FInitSuccess = None ->
      events (handleMessage k (ParsedData data) h m)
      = [Send k FInitSuccess None]).
Proof.
  intros Hc Hsub Hi Hu Hr.
  destruct (init_succeeds_iff_fields_truthy h m k data Hi) as [_ [Hyes _]].
  destruct (Hyes Hu Hr) as [Hreg _].
  assert (Hget : map_get (registry (handleMessage k (ParsedData data) h m)) k
                 = Some (mkClient k JUndefined (Msg.userId data) (Msg.role data)
                                  (Some (Date_now h)))).
  { rewrite Hreg, map_get_set, Nat.eqb_refl. reflexivity. }
  split; [exact Hget|]. split; [|split].
  - intros c' Hc'. rewrite Hget in Hc'. injection Hc' as <-. reflexivity.
  - intros r Hne. rewrite Hreg, map_get_set.
    destruct (Nat.eqb k r) eqn:E; [|reflexivity].
    apply Nat.eqb_eq in E. congruence.
  - intro Hs. rewrite (init_dispatch k data h m Hi).
    rewrite catch_handleError_events, handle_init_run, Hu, Hr.
    cbn [andb events result]. rewrite Hs. reflexivity.
Qed.

Lemma reinit_discards_subscription_witness :
  map_get (registry (handleMessage 2%nat
                       (ParsedData (msg_init (num 8) (JStr "passenger")))
                       (calm 1000) [(2%nat, passenger 2 5 10)])) 2%nat
  = Some (mkClient 2%nat JUndefined (num 8) (JStr "passenger") (Some 1000)).
Proof.
  exact (proj1 (reinit_discards_subscription (calm 1000)
                  [(2%nat, passenger 2 5 10)] 2%nat (passenger 2 5 10)
                  (msg_init (num 8) (JStr "passenger"))
                  eq_refl eq_refl eq_refl eq_refl eq_refl)).
Defined.

Lemma map_mutate_ext (m : Registry) (k : WS) (f g : TrackingClient -> TrackingClient) :
  (forall c, f c = g c) -> map_mutate m k f = map_mutate m k g.
Proof.
  intro H. induction m as [|[k' c] rest IH]; simpl; [reflexivity|].
  destruct (Nat.eqb k' k); [now rewrite H | now rewrite IH].
Qed.

Lemma map_mutate_twice (m : Registry) (k : WS) (f g : TrackingClient -> TrackingClient) :
  map_mutate (map_mutate m k f) k g = map_mutate m k (fun c => g (f c)).
Proof.
  induction m as [|[k' c] rest IH]; simpl; [reflexivity|].
  destruct (Nat.eqb k' k) eqn:E; simpl; rewrite E; [reflexivity | now rewrite IH].
Qed.

Lemma subscribe_dispatch (k : WS) (c : TrackingClient) (data : Msg.t)
    (h : Host) (m : Registry) :
  map_get m k = Some c ->
  is_str (Msg.type data) "subscribe_tracking" = true ->
  handleMessage k (ParsedData data) h m
  = catch (handle_subscribe k (Some c) data) (fun error => handleError k error) h m.
Proof.
  intros Hc Hs. rewrite handleMessage_dispatch.
  - unfold dispatch. rewrite Hc, Hs.
    rewrite (is_str_exclusive _ _ "init" Hs); [reflexivity | discriminate].
  - apply (is_str_truthy _ _ Hs). discriminate.
  - now rewrite Hc.
Qed.

(** What a [subscribe_tracking] frame does to the registry. *)
Lemma subscribe_registry (k : WS) (c : TrackingClient) (data : Msg.t)
    (h : Host) (m : Registry) :
  map_get m k = Some c ->
  is_str (Msg.type data) "subscribe_tracking" = true ->
  registry (handleMessage k (ParsedData data) h m)
  = if truthy (Msg.bookingId data)
    then map_mutate m k (fun c0 => set_lastPing (Date_now h)
                                     (set_bookingId (Msg.bookingId data) c0))
    else m.
Proof.
  intros Hc Hs. rewrite (subscribe_dispatch k c data h m Hc Hs).
  rewrite catch_handleError_registry, handle_subscribe_run.
  destruct (truthy (Msg.bookingId data)); cbn [registry]; [|reflexivity].
  apply map_mutate_twice.
Qed.

(** C9.  On an initialized session, a [subscribe_tracking] frame followed by
    a second one with a valid bookingId leaves the registry that the second
    frame alone leaves: the session is bound to the second bookingId only. *)
Theorem subscribe_last_write_wins
    (h1 h2 : Host) (m : Registry) (k : WS) (c : TrackingClient)
    (first second : Msg.t) :
  map_get m k = Some c ->
  is_str (Msg.type first) "subscribe_tracking" = true ->
  is_str (Msg.type second) "subscribe_tracking" = true ->
  truthy (Msg.bookingId second) = true ->
  registry (handleMessage k (ParsedData second) h2
              (registry (handleMessage k (ParsedData first) h1 m)))
  = registry (handleMessage k (ParsedData second) h2 m)
  /\ map_get (registry (handleMessage k (ParsedData second) h2
                          (registry (handleMessage k (ParsedData first) h1 m)))) k
     = Some (mkClient (ws c) (Msg.bookingId second) (userId c) (role c)
                      (Some (Date_now h2))).
Proof.
  intros Hc H1 H2 Hb.
  assert (Hmid : exists c1,
             map_get (registry (handleMessage k (ParsedData first) h1 m)) k = Some c1).
  { rewrite (subscribe_registry k c first h1 m Hc H1).
    destruct (truthy (Msg.bookingId first)); [|eauto].
    rewrite map_get_mutate, Nat.eqb_refl, Hc. simpl. eauto. }
  destruct Hmid as [c1 Hc1].
  assert (Heq : registry (handleMessage k (ParsedData second) h2
                            (registry (handleMessage k (ParsedData first) h1 m)))
                = registry (handleMessage k (ParsedData second) h2 m)).
  { rewrite (subscribe_registry k c1 second h2 _ Hc1 H2).
    rewrite (subscribe_registry k c second h2 m Hc H2).
    rewrite Hb.
    rewrite (subscribe_registry k c first h1 m Hc H1).
    destruct (truthy (Msg.bookingId first)); [|reflexivity].
    rewrite map_mutate_twice. apply map_mutate_ext.
    intros [w b u r l]. reflexivity. }
  split; [exact Heq|].
  rewrite Heq, (subscribe_registry k c second h2 m Hc H2), Hb.
  rewrite map_get_mutate, Nat.eqb_refl, Hc. reflexivity.
Qed.

Lemma subscribe_last_write_wins_witness :
  map_get (registry (handleMessage 2%nat (ParsedData (msg_subscribe (num 7)))
                       (calm 2000)
                       (registry (handleMessage 2%nat
                                    (ParsedData (msg_subscribe (num 42)))
                                    (calm 1000) [(2%nat, driver 2 10)])))) 2%nat
  = Some (mkClient 2%nat (num 7) (num 7) (JStr "driver") (Some 2000)).
Proof.
  exact (proj2 (subscribe_last_write_wins (calm 1000) (calm 2000)
                  [(2%nat, driver 2 10)] 2%nat (driver 2 10)
                  (msg_subscribe (num 42)) (msg_subscribe (num 7))
                  eq_refl eq_refl eq_refl eq_refl)).
Defined.

(** ** Location ingest *)

Lemma location_dispatch (k : WS) (c : TrackingClient) (data : Msg.t)
    (h : Host) (m : Registry) :
  map_get m k = Some c ->
  is_str (Msg.type data) "location_update" = true ->
  handleMessage k (ParsedData data) h m
  = catch (handle_location k (Some c) data) (fun error => handleError k error) h m.
Proof.
  intros Hc Hl. rewrite handleMessage_dispatch.
  - unfold dispatch. rewrite Hc, Hl.
    rewrite (is_str_exclusive _ _ "init" Hl); [|discriminate].
    rewrite (is_str_exclusive _ _ "subscribe_tracking" Hl); [|discriminate].
    reflexivity.
  - apply (is_str_truthy _ _ Hl). discriminate.
  - now rewrite Hc.
Qed.

Lemma handle_location_invalid (k : WS) (client : option TrackingClient)
    (data : Msg.t) (h : Host) (m : Registry) :
  truthy (Msg.bookingId data) && truthy (Msg.latitude data)
  && truthy (Msg.longitude data) = false ->
  handle_location k client data h m
  = mkRun m [] (Throw "Invalid location update data").
Proof.
  intro H. unfold handle_location.
  destruct (truthy (Msg.bookingId data)), (truthy (Msg.latitude data)),
    (truthy (Msg.longitude data)); try discriminate H; reflexivity.
Qed.

(** The [case "location_update"] block of an initialized session, step by
    step: the stamp, the four conversions, the insert, the update, the
    broadcast.  It stops at the first step that raises. *)
Lemma handle_location_run (k : WS) (c : TrackingClient) (data : Msg.t)
    (h : Host) (m : Registry) :
  truthy (Msg.bookingId data) && truthy (Msg.latitude data)
  && truthy (Msg.longitude data) = true ->
  handle_location k (Some c) data h m
  = let m1 := map_mutate m k (set_lastPing (Date_now h)) in
    match toString (Msg.latitude data) with
    | Throw e => mkRun m1 [] (Throw e)
    | Ok lat =>
    match toString (Msg.longitude data) with
    | Throw e => mkRun m1 [] (Throw e)
    | Ok lon =>
    match toString_opt (Msg.speed data) with
    | Throw e => mkRun m1 [] (Throw e)
    | Ok spd =>
    match toString_opt (Msg.heading data) with
    | Throw e => mkRun m1 [] (Throw e)
    | Ok hdg =>
        let row := Db.mkRow (Msg.bookingId data) lat lon spd hdg "active" in
        let patch := Db.mkUpdate lat lon (new_Date h) (Msg.bookingId data) in
        match insert_raises h row with
        | Some e => mkRun m1 [Insert row (Some e)] (Throw e)
        | None =>
        match update_raises h patch with
        | Some e => mkRun m1 [Insert row None; Update patch (Some e)] (Throw e)
        | None =>
            mkRun (registry (broadcastLocationUpdate data h m1))
                  (Insert row None :: Update patch None
                   :: events (broadcastLocationUpdate data h m1))
                  (Ok tt)
        end
        end
    end
    end
    end
    end.
Proof.
  intro H.
  apply andb_true_iff in H as [H Hlon]. apply andb_true_iff in H as [Hb Hlat].
  unfold handle_location. rewrite Hb, Hlat, Hlon. cbn [negb orb]. cbv zeta.
  rewrite bind_assoc, bind_ask, bind_mutate.
  rewrite bind_lift.
  destruct (toString (Msg.latitude data)) as [lat|e]; [|reflexivity].
  rewrite bind_lift.
  destruct (toString (Msg.longitude data)) as [lon|e]; [|reflexivity].
  rewrite bind_lift.
  destruct (toString_opt (Msg.speed data)) as [spd|e]; [|reflexivity].
  rewrite bind_lift.
  destruct (toString_opt (Msg.heading data)) as [hdg|e]; [|reflexivity].
  rewrite (bind_effect _ (Insert _) (insert_raises h _) _ h _ eq_refl).
  destruct (insert_raises h _) as [e|]; [reflexivity|].
  rewrite !bind_lift, bind_ask.
  rewrite (bind_effect _ (Update _) (update_raises h _) _ h _ eq_refl).
  destruct (update_raises h _) as [e|]; [reflexivity|].
  cbn [registry events result]. rewrite broadcast_run. reflexivity.
Qed.

Lemma handleError_events (k : WS) (error : Text) (h : Host) (m : Registry) (ev : Event) :
  In ev (events (handleError k error h m)) ->
  ev = Send k (FError (reported error)) (send_raises h k (FError (reported error))).
Proof.
  rewrite handleError_run. cbn [events].
  destruct (ReadyState_eqb (readyState h k) OPEN); simpl; intuition.
Qed.

Lemma handleError_open (k : WS) (error : Text) (h : Host) (m : Registry) :
  readyState h k = OPEN ->
  events (handleError k error h m)
  = [Send k (FError (reported error)) (send_raises h k (FError (reported error)))].
Proof.
  intro Ho. rewrite handleError_run, Ho. reflexivity.
Qed.

Example zero_is_falsy : truthy (num 0) = false /\ truthy (num (-0)) = false.
Proof. split; reflexivity. Qed.

Example absent_is_falsy : truthy (Msg.latitude Msg.empty) = false.
Proof. reflexivity. Qed.

(** C3.  A [location_update] frame whose latitude is absent or falsy writes
    nothing to the store, hands no location update to any socket and leaves
    the registry as it was.  On an initialized session it is answered like
    [handleError] answers "Invalid location update data": with that error
    frame to the sender when the sender's socket is open. *)
Theorem location_without_latitude_is_rejected
    (h : Host) (m : Registry) (k : WS) (data : Msg.t) :
  is_str (Msg.type data) "location_update" = true ->
  truthy (Msg.latitude data) = false ->
  registry (handleMessage k (ParsedData data) h m) = m
  /\ result (handleMessage k (ParsedData data) h m) = Ok tt
  /\ (forall ev, In ev (events (handleMessage k (ParsedData data) h m)) ->
                 ~ is_write ev /\ ~ is_fanout ev)
  /\ (forall c, map_get m k = Some c ->
                handleMessage k (ParsedData data) h m
                = handleError k "Invalid location update data" h m)
  /\ (forall c, map_get m k = Some c -> readyState h k = OPEN ->
                events (handleMessage k (ParsedData data) h m)
                = [Send k (FError "Invalid location update data")
                        (send_raises h k (FError "Invalid location update data"))]).
Proof.
  intros Hl Hlat.
  assert (Hrun : exists message,
             handleMessage k (ParsedData data) h m = handleError k message h m
             /\ (forall c, map_get m k = Some c ->
                           message = Lit "Invalid location update data")).
  { destruct (map_get m k) as [c|] eqn:Hc.
    - exists (Lit "Invalid location update data"). split; [|reflexivity].
      rewrite (location_dispatch k c data h m Hc Hl).
      rewrite catch_run, handle_location_invalid.
      + cbn [result registry events app]. rewrite handleError_run. reflexivity.
      + rewrite Hlat. now rewrite andb_false_r.
    - exists (Lit "Client not initialized"). split; [|discriminate].
      apply handleMessage_not_initialized; [| exact Hc |].
      + apply (is_str_truthy _ _ Hl). discriminate.
      + apply (is_str_exclusive _ _ "init" Hl). discriminate. }
  destruct Hrun as [message [Hrun Hmsg]].
  split; [|split; [|split; [|split]]].
  - rewrite Hrun, handleError_run. reflexivity.
  - rewrite Hrun, handleError_run. reflexivity.
  - intros ev Hin. rewrite Hrun in Hin.
    apply handleError_events in Hin. subst ev. simpl. tauto.
  - intros c Hc. rewrite Hrun, (Hmsg c Hc). reflexivity.
  - intros c Hc Ho. rewrite Hrun, (Hmsg c Hc).
    now rewrite handleError_open.
Qed.

(** The witness takes latitude to be the number 0. *)
Lemma location_without_latitude_is_rejected_witness :
  handleMessage 1%nat (ParsedData (msg_location (num 5) (num 0) (num 2)))
                (calm 1000) [(1%nat, driver 1 10); (2%nat, passenger 2 5 10)]
  = mkRun [(1%nat, driver 1 10); (2%nat, passenger 2 5 10)]
          [Send 1%nat (FError "Invalid location update data") None]
          (Ok tt).
Proof.
  destruct (location_without_latitude_is_rejected (calm 1000)
              [(1%nat, driver 1 10); (2%nat, passenger 2 5 10)] 1%nat
              (msg_location (num 5) (num 0) (num 2)) eq_refl eq_refl)
    as [_ [_ [_ [Hrun _]]]].
  rewrite (Hrun (driver 1 10) eq_refl). reflexivity.
Defined.

(** C1 as the specification words it fails: with the insert through and the
    update rejected, the open subscriber of booking 5 on socket 2 is handed
    nothing. *)
Lemma update_failure_still_broadcasts_fails :
  ~ update_failure_still_broadcasts (update_down 1000)
      [(1%nat, driver 1 10); (2%nat, passenger 2 5 10)] 1%nat sample5.
Proof.
  intro H.
  destruct (H (Db.mkRow (num 5) (Dec 1.5) (Dec 2) None None "active")
              (Db.mkUpdate (Dec 1.5) (Dec 2) 1000 (num 5))
              (Lit "connection terminated")
              (or_introl eq_refl) (or_intror (or_introl eq_refl)))
    as [Hfan _].
  destruct (Hfan 2%nat (passenger 2 5 10)
              (or_intror (or_introl eq_refl)) eq_refl eq_refl)
    as [raised Hsent].
  simpl in Hsent.
  destruct Hsent as [Hsent | [Hsent | [Hsent | []]]]; discriminate Hsent.
Qed.

(** C1, as the code has it.  When a [location_update] frame got its tracking
    record inserted and the booking update then raised, the run ends there:
    no location update is handed to any socket, the registry differs from
    the one before only by the sender's refreshed liveness stamp, and the
    exception of the update is reported, as an error frame to the sender
    when the sender's socket is open. *)
Theorem update_failure_stops_the_broadcast
    (h : Host) (m : Registry) (k : WS) (data : Msg.t)
    (row : Db.LocationTracking) (patch : Db.BookingsUpdate) (e : Text) :
  is_str (Msg.type data) "location_update" = true ->
  In (Insert row None) (events (handleMessage k (ParsedData data) h m)) ->
  In (Update patch (Some e)) (events (handleMessage k (ParsedData data) h m)) ->
  (forall ev, In ev (events (handleMessage k (ParsedData data) h m)) ->
              ~ is_fanout ev)
  /\ events (handleMessage k (ParsedData data) h m)
     = ([Insert row None; Update patch (Some e)]
        ++ events (handleError k e h (map_mutate m k (set_lastPing (Date_now h)))))%list
  /\ (readyState h k = OPEN ->
      In (Send k (FError (reported e)) (send_raises h k (FError (reported e))))
         (events (handleMessage k (ParsedData data) h m)))
  /\ registry (handleMessage k (ParsedData data) h m)
     = map_mutate m k (set_lastPing (Date_now h))
  /\ result (handleMessage k (ParsedData data) h m) = Ok tt.
Proof.
  intros Hl Hins Hupd.
  assert (Hshape :
            events (handleMessage k (ParsedData data) h m)
            = ([Insert row None; Update patch (Some e)]
               ++ events (handleError k e h
                            (map_mutate m k (set_lastPing (Date_now h)))))%list
            /\ registry (handleMessage k (ParsedData data) h m)
               = map_mutate m k (set_lastPing (Date_now h))
            /\ result (handleMessage k (ParsedData data) h m) = Ok tt).
  { destruct (map_get m k) as [c|] eqn:Hc.
    2:{ exfalso. revert Hins.
        rewrite handleMessage_not_initialized; [| | exact Hc |].
        - intro Hins. apply handleError_events in Hins. discriminate Hins.
        - apply (is_str_truthy _ _ Hl). discriminate.
        - apply (is_str_exclusive _ _ "init" Hl). discriminate. }
    revert Hins Hupd.
    rewrite (location_dispatch k c data h m Hc Hl).
    rewrite catch_handleError_events, catch_handleError_registry,
      catch_handleError_result.
    destruct (truthy (Msg.bookingId data) && truthy (Msg.latitude data)
              && truthy (Msg.longitude data)) eqn:Hvalid.
    2:{ rewrite (handle_location_invalid k (Some c) data h m Hvalid).
        cbn [events result registry app]. intro Hins.
        apply handleError_events in Hins. discriminate Hins. }
    rewrite (handle_location_run k c data h m Hvalid). cbv zeta.
    destruct (toString (Msg.latitude data)) as [lat|e0];
      [|cbn [events result registry app]; intro Hins;
        apply handleError_events in Hins; discriminate Hins].
    destruct (toString (Msg.longitude data)) as [lon|e0];
      [|cbn [events result registry app]; intro Hins;
        apply handleError_events in Hins; discriminate Hins].
    destruct (toString_opt (Msg.speed data)) as [spd|e0];
      [|cbn [events result registry app]; intro Hins;
        apply handleError_events in Hins; discriminate Hins].
    destruct (toString_opt (Msg.heading data)) as [hdg|e0];
      [|cbn [events result registry app]; intro Hins;
        apply handleError_events in Hins; discriminate Hins].
    destruct (insert_raises h _) as [e0|] eqn:Ei.
    { cbn [events result registry app]. intros [Hins | Hins].
      - discriminate Hins.
      - apply handleError_events in Hins. discriminate Hins. }
    destruct (update_raises h _) as [e0|] eqn:Eu.
    - cbn [events result registry app].
      intros [Hins | [Hins | Hins]] [Hupd | [Hupd | Hupd]];
        try discriminate Hins; try discriminate Hupd;
        try (apply handleError_events in Hins; discriminate Hins);
        try (apply handleError_events in Hupd; discriminate Hupd).
      injection Hins as <-. injection Hupd as <- <-.
      repeat split.
    - cbn [events result registry app].
      intros _ [Hupd | [Hupd | Hupd]]; try discriminate Hupd.
      rewrite app_nil_r in Hupd.
      apply broadcast_events in Hupd as [r [c' [_ [_ Hupd]]]].
      discriminate Hupd. }
  destruct Hshape as [Hev [Hreg Hres]].
  split; [|split; [exact Hev | split; [|split; assumption]]].
  - intros ev Hin. rewrite Hev in Hin.
    destruct Hin as [<- | [<- | Hin]]; simpl; try tauto.
    apply handleError_events in Hin. subst ev. simpl. tauto.
  - intro Ho. rewrite Hev, (handleError_open _ _ _ _ Ho).
    simpl. right. right. left. reflexivity.
Qed.

Lemma update_failure_stops_the_broadcast_witness :
  events (handleMessage 1%nat (ParsedData sample5) (update_down 1000)
            [(1%nat, driver 1 10); (2%nat, passenger 2 5 10)])
  = [Insert (Db.mkRow (num 5) (Dec 1.5) (Dec 2) None None "active") None;
     Update (Db.mkUpdate (Dec 1.5) (Dec 2) 1000 (num 5))
            (Some (Lit "connection terminated"));
     Send 1%nat (FError "connection terminated") None].
Proof.
  destruct (update_failure_stops_the_broadcast (update_down 1000)
              [(1%nat, driver 1 10); (2%nat, passenger 2 5 10)] 1%nat sample5
              (Db.mkRow (num 5) (Dec 1.5) (Dec 2) None None "active")
              (Db.mkUpdate (Dec 1.5) (Dec 2) 1000 (num 5))
              (Lit "connection terminated")
              eq_refl (or_introl eq_refl) (or_intror (or_introl eq_refl)))
    as [_ [Hev _]].
  rewrite Hev. reflexivity.
Defined.

(** ** Invariants of the registry

    A property of the registry that survives the four ways the program
    writes to it survives every handler and both loops. *)

Section Invariants.

Variable P : Registry -> Prop.
Variable h : Host.

Hypothesis P_delete : forall m k, P m -> P (map_delete m k).
Hypothesis P_set :
  forall m k u r, P m -> P (map_set m k (mkClient k JUndefined u r (Some (Date_now h)))).
Hypothesis P_subscribe :
  forall m k b, P m -> P (map_mutate m k (set_bookingId b)).
Hypothesis P_stamp :
  forall m k, P m -> P (map_mutate m k (set_lastPing (Date_now h))).

Lemma keeps_bind {A B} (c : M A) (k : A -> M B) :
  keeps P h c -> (forall a, keeps P h (k a)) -> keeps P h (bind c k).
Proof.
  intros Hc Hk m Hm. unfold bind.
  specialize (Hc m Hm).
  destruct (c h m) as [m1 ev1 [a|e]]; cbn [result registry] in *; [|exact Hc].
  now apply Hk.
Qed.

Lemma keeps_catch {A} (c : M A) (handler : Text -> M A) :
  keeps P h c -> (forall e, keeps P h (handler e)) -> keeps P h (catch c handler).
Proof.
  intros Hc Hk m Hm. unfold catch.
  specialize (Hc m Hm).
  destruct (c h m) as [m1 ev1 [a|e]]; cbn [result registry] in *; [exact Hc|].
  now apply Hk.
Qed.

Lemma keeps_untouched {A} (c : M A) :
  (forall m, registry (c h m) = m) -> keeps P h c.
Proof. intros H m Hm. now rewrite H. Qed.

Lemma keeps_handleError (k : WS) (e : Text) : keeps P h (handleError k e).
Proof. apply keeps_untouched. intro m. now rewrite handleError_run. Qed.

Lemma keeps_broadcast (update : Msg.t) : keeps P h (broadcastLocationUpdate update).
Proof.
  intros m Hm. rewrite broadcast_run. cbn [registry].
  unfold delete_all. generalize (keys (filter (dropped update h) m)).
  intro ks. revert m Hm.
  induction ks as [|k ks IH]; intros m Hm; simpl; auto.
Qed.

Lemma keeps_cleanup : keeps P h cleanupStaleConnections.
Proof.
  intros m Hm. rewrite cleanup_run. cbn [registry].
  unfold delete_all. generalize (keys (filter (stale h (Date_now h)) m)).
  intro ks. revert m Hm.
  induction ks as [|k ks IH]; intros m Hm; simpl; auto.
Qed.

Lemma keeps_handle_init (k : WS) (data : Msg.t) : keeps P h (handle_init k data).
Proof.
  intros m Hm. rewrite handle_init_run.
  destruct (truthy (Msg.userId data) && truthy (Msg.role data));
    cbn [registry]; auto.
Qed.

Lemma keeps_handle_subscribe (k : WS) (client : option TrackingClient) (data : Msg.t) :
  keeps P h (handle_subscribe k client data).
Proof.
  intros m Hm. destruct client as [c|].
  - rewrite handle_subscribe_run.
    destruct (truthy (Msg.bookingId data)); cbn [registry]; auto.
  - unfold handle_subscribe.
    destruct (truthy (Msg.bookingId data)); cbn [negb]; exact Hm.
Qed.

Lemma keeps_handle_ping (k : WS) (client : option TrackingClient) :
  keeps P h (handle_ping k client).
Proof.
  intros m Hm. destruct client as [c|]; [|exact Hm].
  rewrite handle_ping_run. cbn [registry]. auto.
Qed.

Lemma keeps_handle_location (k : WS) (client : option TrackingClient) (data : Msg.t) :
  keeps P h (handle_location k client data).
Proof.
  unfold handle_location.
  destruct (negb (truthy (Msg.bookingId data))
            || negb (truthy (Msg.latitude data))
            || negb (truthy (Msg.longitude data))).
  { now apply keeps_untouched. }
  apply keeps_bind.
  { destruct client as [c|]; [|now apply keeps_untouched].
    intros m Hm. rewrite bind_ask. cbn [clients_mutate registry]. auto. }
  intros _.
  do 9 (apply keeps_bind;
        [ apply keeps_untouched; intro m;
          first [ reflexivity
                | now destruct (toString _)
                | now destruct (toString_opt _) ]
        | intro ]).
  apply keeps_broadcast.
Qed.

Lemma keeps_dispatch (k : WS) (client : option TrackingClient) (data : Msg.t) :
  keeps P h (dispatch k client data).
Proof.
  unfold dispatch.
  destruct (is_str (Msg.type data) "init"); [apply keeps_handle_init|].
  destruct (is_str (Msg.type data) "subscribe_tracking");
    [apply keeps_handle_subscribe|].
  destruct (is_str (Msg.type data) "location_update");
    [apply keeps_handle_location|].
  destruct (is_str (Msg.type data) "ping"); [apply keeps_handle_ping|].
  apply keeps_untouched. intro m. unfold handle_unknown.
  rewrite bind_lift. now destruct (template (Msg.type data)).
Qed.

Lemma keeps_handleMessage (k : WS) (message : Parsed) :
  keeps P h (handleMessage k message).
Proof.
  destruct message as [| |data]; cbn [handleMessage].
  - apply keeps_handleError.
  - now apply keeps_untouched.
  - destruct (negb (truthy (Msg.type data))); [apply keeps_handleError|].
    apply keeps_bind; [now apply keeps_untouched|].
    intro client.
    destruct (is_none client && negb (is_str (Msg.type data) "init"));
      [apply keeps_handleError|].
    apply keeps_catch; [apply keeps_dispatch|].
    intro e. apply keeps_handleError.
Qed.

End Invariants.

Lemma in_map_mutate (m : Registry) (k : WS) (f : TrackingClient -> TrackingClient)
    (k' : WS) (c' : TrackingClient) :
  In (k', c') (map_mutate m k f) ->
  In (k', c') m \/ exists c, In (k', c) m /\ c' = f c.
Proof.
  induction m as [|[k0 c0] rest IH]; simpl; [tauto|].
  destruct (Nat.eqb k0 k); simpl.
  - intros [H | H]; [|tauto]. injection H as <- <-. right. eauto.
  - intros [H | H]; [tauto|]. destruct (IH H) as [? | [c [? ?]]]; eauto.
Qed.

Lemma in_map_set (m : Registry) (k : WS) (c : TrackingClient)
    (k' : WS) (c' : TrackingClient) :
  In (k', c') (map_set m k c) -> (k', c') = (k, c) \/ In (k', c') m.
Proof.
  induction m as [|[k0 c0] rest IH]; simpl; [intuition|].
  destruct (Nat.eqb k0 k); simpl; intuition.
Qed.

(** The registry holds each socket once, whatever the handler is given. *)
Theorem handleMessage_keeps_wf (h : Host) (k : WS) (message : Parsed) (m : Registry) :
  wf_registry m -> wf_registry (registry (handleMessage k message h m)).
Proof.
  apply (keeps_handleMessage wf_registry h);
    auto using wf_delete, wf_set, wf_mutate.
Qed.

(** While the clock does not read 0, every session the handler leaves
    carries a liveness stamp that reads as true. *)
Theorem handleMessage_keeps_stamped (h : Host) (k : WS) (message : Parsed) (m : Registry) :
  Date_now h <> 0 ->
  stamped m -> stamped (registry (handleMessage k message h m)).
Proof.
  intro Hnow.
  assert (Hfresh : forall c, lastPing_truthy (set_lastPing (Date_now h) c) = true).
  { intro c. unfold lastPing_truthy; simpl.
    apply negb_true_iff, Z.eqb_neq, Hnow. }
  apply (keeps_handleMessage stamped h); unfold stamped.
  - intros m0 k0 Hm k' c' Hin. apply filter_In in Hin as [Hin _]. eauto.
  - intros m0 k0 u r Hm k' c' Hin.
    apply in_map_set in Hin as [Heq | Hin]; [|eauto].
    injection Heq as -> ->. exact (Hfresh (mkClient k0 JUndefined u r None)).
  - intros m0 k0 b Hm k' c' Hin.
    apply in_map_mutate in Hin as [Hin | [c [Hin ->]]]; [eauto|].
    exact (Hm k' c Hin).
  - intros m0 k0 Hm k' c' Hin.
    apply in_map_mutate in Hin as [Hin | [c [Hin ->]]]; [eauto|].
    apply Hfresh.
Qed.

(** X26.  From the empty registry, with a clock that never reads 0, every
    registry the handler reaches through frames on any sockets has a stamp
    that reads as true on every session, which is what the age tests of the
    two sweeps rely on. *)
Theorem reachable_registries_are_stamped
    (frames : list (Host * WS * Parsed)) :
  Forall (fun f => Date_now (fst (fst f)) <> 0) frames ->
  stamped (fold_left (fun m f => registry (handleMessage (snd (fst f)) (snd f)
                                                         (fst (fst f)) m))
                     frames []).
Proof.
  assert (Hgen : forall m, stamped m ->
            Forall (fun f => Date_now (fst (fst f)) <> 0) frames ->
            stamped (fold_left (fun m f => registry (handleMessage (snd (fst f)) (snd f)
                                                                   (fst (fst f)) m))
                               frames m)).
  { induction frames as [|[[h k] message] rest IH]; intros m Hm Hall; simpl.
    - exact Hm.
    - inversion Hall as [|? ? Hnow Hrest]; subst. simpl in Hnow.
      apply IH; [|exact Hrest].
      now apply handleMessage_keeps_stamped. }
  apply Hgen. intros k c [].
Qed.

(** ** What a frame can make the handler emit *)

Section Emits.

Variable Q : Event -> Prop.
Variable k : WS.
Variable data : Msg.t.
Variable h : Host.

Hypothesis Q_reply : forall frame raised,
    ~ is_fanout (Send k frame raised) -> Q (Send k frame raised).
Hypothesis Q_write :
  is_str (Msg.type data) "location_update" = true ->
  forall ev, is_write ev -> Q ev.
Hypothesis Q_fanout :
  is_str (Msg.type data) "location_update" = true ->
  forall r raised, Q (Send r (FLocationUpdate data) raised).

Lemma emits_bind {A B} (c : M A) (f : A -> M B) :
  emits Q h c -> (forall a, emits Q h (f a)) -> emits Q h (bind c f).
Proof.
  intros Hc Hf m. unfold bind. specialize (Hc m).
  destruct (c h m) as [m1 ev1 [a|e]]; cbn [result registry events] in *;
    [|exact Hc].
  apply Forall_app. split; [exact Hc | apply Hf].
Qed.

Lemma emits_catch {A} (c : M A) (handler : Text -> M A) :
  emits Q h c -> (forall e, emits Q h (handler e)) -> emits Q h (catch c handler).
Proof.
  intros Hc Hf m. unfold catch. specialize (Hc m).
  destruct (c h m) as [m1 ev1 [a|e]]; cbn [result registry events] in *;
    [exact Hc|].
  apply Forall_app. split; [exact Hc | apply Hf].
Qed.

Lemma emits_silent {A} (c : M A) :
  (forall m, events (c h m) = []) -> emits Q h c.
Proof. intros H m. rewrite H. constructor. Qed.

Lemma emits_reply (frame : Frame) :
  (forall raised, ~ is_fanout (Send k frame raised)) -> emits Q h (send k frame).
Proof.
  intros Hf m. unfold send. cbn [events]. constructor; [|constructor].
  apply Q_reply, Hf.
Qed.

Lemma emits_handleError (e : Text) : emits Q h (handleError k e).
Proof.
  intro m. rewrite handleError_run. cbn [events].
  destruct (ReadyState_eqb (readyState h k) OPEN); repeat constructor.
  apply Q_reply. simpl. tauto.
Qed.

Lemma emits_handle_init : emits Q h (handle_init k data).
Proof.
  intro m. rewrite handle_init_run.
  destruct (truthy (Msg.userId data) && truthy (Msg.role data));
    cbn [events]; repeat constructor.
  apply Q_reply. simpl. tauto.
Qed.

Lemma emits_handle_subscribe (client : option TrackingClient) :
  emits Q h (handle_subscribe k client data).
Proof.
  intro m. destruct client as [c|].
  - rewrite handle_subscribe_run.
    destruct (truthy (Msg.bookingId data)); cbn [events]; repeat constructor.
    apply Q_reply. simpl. tauto.
  - unfold handle_subscribe.
    destruct (truthy (Msg.bookingId data)); cbn [negb]; constructor.
Qed.

Lemma emits_handle_ping (client : option TrackingClient) :
  emits Q h (handle_ping k client).
Proof.
  intro m. destruct client as [c|]; [|constructor].
  rewrite handle_ping_run. cbn [events]. repeat constructor.
  apply Q_reply. simpl. tauto.
Qed.

Lemma emits_broadcast :
  is_str (Msg.type data) "location_update" = true ->
  emits Q h (broadcastLocationUpdate data).
Proof.
  intros Hl m. rewrite broadcast_run. cbn [events].
  apply Forall_forall. intros ev Hin.
  apply in_map_iff in Hin as [e [<- _]]. apply Q_fanout, Hl.
Qed.

Lemma emits_handle_location (client : option TrackingClient) :
  is_str (Msg.type data) "location_update" = true ->
  emits Q h (handle_location k client data).
Proof.
  intro Hl. unfold handle_location.
  destruct (negb (truthy (Msg.bookingId data))
            || negb (truthy (Msg.latitude data))
            || negb (truthy (Msg.longitude data))).
  { now apply emits_silent. }
  apply emits_bind.
  { destruct client as [c|]; now apply emits_silent. }
  intros _.
  do 4 (apply emits_bind;
        [ apply emits_silent; intro m;
          first [ now destruct (toString _) | now destruct (toString_opt _) ]
        | intro ]).
  apply emits_bind.
  { intro m. cbn [db_insert events]. repeat constructor.
    apply (Q_write Hl). exact I. }
  intros _.
  do 3 (apply emits_bind;
        [ apply emits_silent; intro m;
          first [ reflexivity | now destruct (toString _) ]
        | intro ]).
  apply emits_bind.
  { intro m. cbn [db_update events]. repeat constructor.
    apply (Q_write Hl). exact I. }
  intros _. apply emits_broadcast, Hl.
Qed.

Lemma emits_dispatch (client : option TrackingClient) :
  emits Q h (dispatch k client data).
Proof.
  unfold dispatch.
  destruct (is_str (Msg.type data) "init"); [apply emits_handle_init|].
  destruct (is_str (Msg.type data) "subscribe_tracking");
    [apply emits_handle_subscribe|].
  assert (Hl : {is_str (Msg.type data) "location_update" = true}
               + {is_str (Msg.type data) "location_update" = false})
    by (clear; destruct (is_str (Msg.type data) "location_update"); auto).
  destruct Hl as [Hl | Hl]; rewrite Hl; [now apply emits_handle_location|].
  destruct (is_str (Msg.type data) "ping"); [apply emits_handle_ping|].
  apply emits_silent. intro m. unfold handle_unknown.
  rewrite bind_lift. now destruct (template (Msg.type data)).
Qed.

Lemma emits_handleMessage : emits Q h (handleMessage k (ParsedData data)).
Proof.
  cbn [handleMessage].
  destruct (negb (truthy (Msg.type data))); [apply emits_handleError|].
  apply emits_bind; [now apply emits_silent|].
  intro client.
  destruct (is_none client && negb (is_str (Msg.type data) "init"));
    [apply emits_handleError|].
  apply emits_catch; [apply emits_dispatch|].
  intro e. apply emits_handleError.
Qed.

End Emits.

(** ** How a frame can change the registry *)

Section Steps.

Variable R : Registry -> Registry -> Prop.
Variable k : WS.
Variable data : Msg.t.
Variable h : Host.

Hypothesis R_refl : forall m, R m m.
Hypothesis R_trans : forall m1 m2 m3, R m1 m2 -> R m2 m3 -> R m1 m3.
Hypothesis R_set : forall m c, R m (map_set m k c).
Hypothesis R_mutate : forall m f, R m (map_mutate m k f).
Hypothesis R_fanout :
  is_str (Msg.type data) "location_update" = true ->
  forall m, R m (registry (broadcastLocationUpdate data h m)).

Lemma steps_bind {A B} (c : M A) (f : A -> M B) :
  steps R h c -> (forall a, steps R h (f a)) -> steps R h (bind c f).
Proof.
  intros Hc Hf m. unfold bind. specialize (Hc m).
  destruct (c h m) as [m1 ev1 [a|e]] eqn:E; cbn [result registry] in *;
    [|exact Hc].
  eapply R_trans; [exact Hc | apply Hf].
Qed.

Lemma steps_catch {A} (c : M A) (handler : Text -> M A) :
  steps R h c -> (forall e, steps R h (handler e)) -> steps R h (catch c handler).
Proof.
  intros Hc Hf m. unfold catch. specialize (Hc m).
  destruct (c h m) as [m1 ev1 [a|e]] eqn:E; cbn [result registry] in *;
    [exact Hc|].
  eapply R_trans; [exact Hc | apply Hf].
Qed.

Lemma steps_untouched {A} (c : M A) :
  (forall m, registry (c h m) = m) -> steps R h c.
Proof. intros H m. rewrite H. apply R_refl. Qed.

Lemma steps_handleError (e : Text) : steps R h (handleError k e).
Proof. apply steps_untouched. intro m. now rewrite handleError_run. Qed.

Lemma steps_handle_location (client : option TrackingClient) :
  is_str (Msg.type data) "location_update" = true ->
  steps R h (handle_location k client data).
Proof.
  intro Hl. unfold handle_location.
  destruct (negb (truthy (Msg.bookingId data))
            || negb (truthy (Msg.latitude data))
            || negb (truthy (Msg.longitude data))).
  { now apply steps_untouched. }
  apply steps_bind.
  { destruct client as [c|]; [|now apply steps_untouched].
    intro m. rewrite bind_ask. cbn [clients_mutate registry]. apply R_mutate. }
  intros _.
  do 9 (apply steps_bind;
        [ apply steps_untouched; intro m;
          first [ reflexivity
                | now destruct (toString _)
                | now destruct (toString_opt _) ]
        | intro ]).
  intro m. apply R_fanout, Hl.
Qed.

Lemma steps_dispatch (client : option TrackingClient) :
  steps R h (dispatch k client data).
Proof.
  unfold dispatch.
  destruct (is_str (Msg.type data) "init").
  { intro m. rewrite handle_init_run.
    destruct (truthy (Msg.userId data) && truthy (Msg.role data));
      cbn [registry]; auto. }
  destruct (is_str (Msg.type data) "subscribe_tracking").
  { intro m. destruct client as [c|].
    - rewrite handle_subscribe_run.
      destruct (truthy (Msg.bookingId data)); cbn [registry]; eauto.
    - unfold handle_subscribe.
      destruct (truthy (Msg.bookingId data)); cbn [negb]; apply R_refl. }
  assert (Hl : {is_str (Msg.type data) "location_update" = true}
               + {is_str (Msg.type data) "location_update" = false})
    by (clear; destruct (is_str (Msg.type data) "location_update"); auto).
  destruct Hl as [Hl | Hl]; rewrite Hl; [now apply steps_handle_location|].
  destruct (is_str (Msg.type data) "ping").
  { intro m. destruct client as [c|]; [|apply R_refl].
    rewrite handle_ping_run. cbn [registry]. auto. }
  apply steps_untouched. intro m. unfold handle_unknown.
  rewrite bind_lift. now destruct (template (Msg.type data)).
Qed.

Lemma steps_handleMessage : steps R h (handleMessage k (ParsedData data)).
Proof.
  cbn [handleMessage].
  destruct (negb (truthy (Msg.type data))); [apply steps_handleError|].
  apply steps_bind; [now apply steps_untouched|].
  intro client.
  destruct (is_none client && negb (is_str (Msg.type data) "init"));
    [apply steps_handleError|].
  apply steps_catch; [apply steps_dispatch|].
  intro e. apply steps_handleError.
Qed.

End Steps.

(** ** The handler as a whole *)

Lemma handleMessage_data_result (k : WS) (data : Msg.t) (h : Host) (m : Registry) :
  result (handleMessage k (ParsedData data) h m) = Ok tt.
Proof.
  cbn [handleMessage].
  destruct (negb (truthy (Msg.type data))); [now rewrite handleError_run|].
  unfold bind at 1, clients_get. cbn [result registry events].
  destruct (is_none (map_get m k) && negb (is_str (Msg.type data) "init")).
  - now rewrite handleError_run.
  - now rewrite catch_handleError_result.
Qed.

(** X1.  The handler raises on exactly one kind of frame: the JSON text
    [null], whose [type] is read outside the [try].  Nothing is sent and
    nothing changes then.  Every other frame, malformed or not, ends
    normally. *)
Theorem handleMessage_raises_only_on_null
    (h : Host) (m : Registry) (k : WS) (message : Parsed) :
  (result (handleMessage k message h m) = Ok tt <-> message <> ParsedNull)
  /\ (message = ParsedNull ->
      (exists e, result (handleMessage k message h m) = Throw e)
      /\ registry (handleMessage k message h m) = m
      /\ events (handleMessage k message h m) = []).
Proof.
  destruct message as [| |data].
  - split; [|discriminate]. split; [discriminate|].
    intros _. cbn [handleMessage]. now rewrite handleError_run.
  - split.
    + split; [discriminate|]. intro H. now contradiction H.
    + intros _. cbn. eauto.
  - split; [|discriminate]. split; [discriminate|].
    intros _. apply handleMessage_data_result.
Qed.

(** X2.  Whatever a frame on socket [k] makes the handler do to the outside
    is a reply to [k] itself, unless the frame is a [location_update]: only
    then the store is written, and only then other sockets are sent
    something, namely the sample of this very frame.  Error frames and
    acknowledgements never go to another socket. *)
Theorem handleMessage_effects_are_caused_by_the_frame
    (h : Host) (m : Registry) (k : WS) (data : Msg.t) :
  Forall (caused_by k data) (events (handleMessage k (ParsedData data) h m)).
Proof.
  apply (emits_handleMessage (caused_by k data) k data h); unfold caused_by.
  - intros frame raised Hf. left. simpl. auto.
  - intros Hl ev Hw. right. auto.
  - intros Hl r raised. right. split; [exact Hl|]. right. eauto.
Qed.

Lemma others_kept_or_gone_trans (k : WS) (m1 m2 m3 : Registry) :
  others_kept_or_gone k m1 m2 -> others_kept_or_gone k m2 m3 ->
  others_kept_or_gone k m1 m3.
Proof.
  intros H12 H23 r Hr.
  destruct (H23 r Hr) as [E | E]; [|now right].
  rewrite E. now apply H12.
Qed.

Lemma handleMessage_others_kept_or_gone (h : Host) (m : Registry) (k : WS)
    (message : Parsed) :
  others_kept_or_gone k m (registry (handleMessage k message h m)).
Proof.
  destruct message as [| |data].
  - cbn [handleMessage]. rewrite handleError_run. intros r _. now left.
  - intros r _. now left.
  - apply (steps_handleMessage (others_kept_or_gone k) k data h).
    + intros m0 r _. now left.
    + apply others_kept_or_gone_trans.
    + intros m0 c r Hr. left. rewrite map_get_set.
      destruct (Nat.eqb k r) eqn:E; [|reflexivity].
      apply Nat.eqb_eq in E. congruence.
    + intros m0 f r Hr. left. rewrite map_get_mutate.
      destruct (Nat.eqb k r) eqn:E; [|reflexivity].
      apply Nat.eqb_eq in E. congruence.
    + intros _ m0 r _. rewrite broadcast_run. cbn [registry].
      rewrite map_get_delete_all.
      destruct (existsb _ _); auto.
Qed.

Lemma handleMessage_others_untouched (h : Host) (m : Registry) (k : WS)
    (data : Msg.t) :
  is_str (Msg.type data) "location_update" = false ->
  others_untouched k m (registry (handleMessage k (ParsedData data) h m)).
Proof.
  intro Hl.
  apply (steps_handleMessage (others_untouched k) k data h).
  - intros m0 r _. reflexivity.
  - intros m1 m2 m3 H12 H23 r Hr. rewrite (H23 r Hr). now apply H12.
  - intros m0 c r Hr. rewrite map_get_set.
    destruct (Nat.eqb k r) eqn:E; [|reflexivity].
    apply Nat.eqb_eq in E. congruence.
  - intros m0 f r Hr. rewrite map_get_mutate.
    destruct (Nat.eqb k r) eqn:E; [|reflexivity].
    apply Nat.eqb_eq in E. congruence.
  - rewrite Hl. discriminate.
Qed.

(** X3.  A frame on socket [k] never alters the session of another socket.
    A frame other than a [location_update] leaves every other session
    exactly as it is; a [location_update] can in addition remove other
    sessions (through its broadcast), but never changes one. *)
Theorem handleMessage_leaves_other_sessions_alone
    (h : Host) (m : Registry) (k : WS) (message : Parsed) :
  others_kept_or_gone k m (registry (handleMessage k message h m))
  /\ ((forall data, message = ParsedData data ->
                    is_str (Msg.type data) "location_update" = false) ->
      others_untouched k m (registry (handleMessage k message h m))).
Proof.
  split; [apply handleMessage_others_kept_or_gone|].
  intro Hl. destruct message as [| |data].
  - cbn [handleMessage]. rewrite handleError_run. intros r _. reflexivity.
  - intros r _. reflexivity.
  - apply handleMessage_others_untouched. now apply Hl.
Qed.

(** ** Location ingest, case by case *)

Lemma handleError_as_run (k : WS) (e : Text) (h : Host) (m : Registry) :
  handleError k e h m = mkRun m (events (handleError k e h m)) (Ok tt).
Proof. now rewrite handleError_run. Qed.

(** A [location_update] frame either ends in a plain error report (sender not
    initialized, a field missing, a number that cannot be rendered), or goes
    to the store. *)
Lemma location_outcomes (k : WS) (data : Msg.t) (h : Host) (m : Registry) :
  is_str (Msg.type data) "location_update" = true ->
  (exists e m',
      handleMessage k (ParsedData data) h m = handleError k e h m'
      /\ (m' = m \/ m' = map_mutate m k (set_lastPing (Date_now h))))
  \/ (exists c lat lon spd hdg,
         map_get m k = Some c
         /\ truthy (Msg.bookingId data) = true
         /\ toString (Msg.latitude data) = Ok lat
         /\ toString (Msg.longitude data) = Ok lon
         /\ toString_opt (Msg.speed data) = Ok spd
         /\ toString_opt (Msg.heading data) = Ok hdg
         /\ handleMessage k (ParsedData data) h m
            = ingest_outcome k data h (map_mutate m k (set_lastPing (Date_now h)))
                             lat lon spd hdg).
Proof.
  intro Hl.
  destruct (map_get m k) as [c|] eqn:Hc.
  2:{ left. exists (Lit "Client not initialized"), m. split; [|now left].
      apply handleMessage_not_initialized; [| exact Hc |].
      - apply (is_str_truthy _ _ Hl). discriminate.
      - apply (is_str_exclusive _ _ "init" Hl). discriminate. }
  rewrite (location_dispatch k c data h m Hc Hl), catch_run.
  destruct (truthy (Msg.bookingId data) && truthy (Msg.latitude data)
            && truthy (Msg.longitude data)) eqn:Hvalid.
  2:{ left. exists (Lit "Invalid location update data"), m. split; [|now left].
      rewrite (handle_location_invalid k (Some c) data h m Hvalid).
      cbn [result registry events app]. apply run_eta. }
  rewrite (handle_location_run k c data h m Hvalid). cbv zeta.
  assert (Hb : truthy (Msg.bookingId data) = true).
  { apply andb_true_iff in Hvalid as [Hv _].
    now apply andb_true_iff in Hv as [Hv _]. }
  set (m1 := map_mutate m k (set_lastPing (Date_now h))).
  destruct (toString (Msg.latitude data)) as [lat|e];
    [|left; exists e, m1; split; [|now right];
      cbn [result registry events app]; apply run_eta].
  destruct (toString (Msg.longitude data)) as [lon|e];
    [|left; exists e, m1; split; [|now right];
      cbn [result registry events app]; apply run_eta].
  destruct (toString_opt (Msg.speed data)) as [spd|e];
    [|left; exists e, m1; split; [|now right];
      cbn [result registry events app]; apply run_eta].
  destruct (toString_opt (Msg.heading data)) as [hdg|e];
    [|left; exists e, m1; split; [|now right];
      cbn [result registry events app]; apply run_eta].
  right. exists c, lat, lon, spd, hdg.
  repeat (split; [reflexivity || assumption|]).
  unfold ingest_outcome, tracking_row, booking_patch.
  destruct (insert_raises h _) as [e|].
  { cbn [result registry events app]. now rewrite handleError_run. }
  destruct (update_raises h _) as [e|].
  { cbn [result registry events app]. now rewrite handleError_run. }
  cbn [result registry events app]. reflexivity.
Qed.

Lemma handleError_no_write (k : WS) (e : Text) (h : Host) (m : Registry) (ev : Event) :
  In ev (events (handleError k e h m)) -> ~ is_write ev /\ ~ is_fanout ev.
Proof.
  intro Hin. apply handleError_events in Hin. subst ev. simpl. tauto.
Qed.

Lemma broadcast_no_write (data : Msg.t) (h : Host) (m : Registry) (ev : Event) :
  In ev (events (broadcastLocationUpdate data h m)) -> ~ is_write ev.
Proof.
  intro Hin. apply broadcast_events in Hin as [r [c [_ [_ ->]]]]. simpl. tauto.
Qed.

(** The store is written only for a [location_update] frame. *)
Lemma writes_need_location (k : WS) (data : Msg.t) (h : Host) (m : Registry) (ev : Event) :
  In ev (events (handleMessage k (ParsedData data) h m)) ->
  is_write ev \/ is_fanout ev ->
  is_str (Msg.type data) "location_update" = true.
Proof.
  intros Hin Hw.
  pose proof (emits_handleMessage
                (fun ev => is_write ev \/ is_fanout ev ->
                           is_str (Msg.type data) "location_update" = true)
                k data h) as H.
  eapply Forall_forall in H; [exact (H Hw) | | | | exact Hin].
  - intros frame raised Hf [[] | Hx]. contradiction.
  - intros Hl ev0 _ _. exact Hl.
  - intros Hl r raised _. exact Hl.
Qed.

Lemma store_reached (k : WS) (data : Msg.t) (h : Host) (m : Registry) (ev : Event) :
  In ev (events (handleMessage k (ParsedData data) h m)) ->
  is_write ev \/ is_fanout ev ->
  exists c lat lon spd hdg,
    map_get m k = Some c
    /\ truthy (Msg.bookingId data) = true
    /\ toString (Msg.latitude data) = Ok lat
    /\ toString (Msg.longitude data) = Ok lon
    /\ toString_opt (Msg.speed data) = Ok spd
    /\ toString_opt (Msg.heading data) = Ok hdg
    /\ handleMessage k (ParsedData data) h m
       = ingest_outcome k data h (map_mutate m k (set_lastPing (Date_now h)))
                        lat lon spd hdg.
Proof.
  intros Hin Hw.
  pose proof (writes_need_location k data h m ev Hin Hw) as Hl.
  destruct (location_outcomes k data h m Hl) as [[e [m' [Hrun _]]] | Hstore];
    [|exact Hstore].
  exfalso. rewrite Hrun in Hin.
  apply handleError_no_write in Hin. tauto.
Qed.

(** The events of a frame that handed out a sample: both writes went
    through, then the broadcast ran over the registry with the sender's
    stamp refreshed. *)
Lemma fanout_shape (k : WS) (data : Msg.t) (h : Host) (m : Registry) (ev : Event) :
  In ev (events (handleMessage k (ParsedData data) h m)) ->
  is_fanout ev \/ (exists patch, ev = Update patch None) ->
  exists lat lon spd hdg,
    truthy (Msg.bookingId data) = true
    /\ handleMessage k (ParsedData data) h m
       = mkRun (registry (broadcastLocationUpdate data h
                            (map_mutate m k (set_lastPing (Date_now h)))))
               (Insert (tracking_row data lat lon spd hdg) None
                :: Update (booking_patch data h lat lon) None
                :: events (broadcastLocationUpdate data h
                             (map_mutate m k (set_lastPing (Date_now h)))))
               (Ok tt).
Proof.
  intros Hin Hkind.
  assert (Hw : is_write ev \/ is_fanout ev).
  { destruct Hkind as [Hf | [patch ->]]; [now right | left; exact I]. }
  destruct (store_reached k data h m ev Hin Hw)
    as [c [lat [lon [spd [hdg [_ [Hb [_ [_ [_ [_ Hrun]]]]]]]]]]].
  exists lat, lon, spd, hdg. split; [exact Hb|].
  rewrite Hrun in Hin |- *. unfold ingest_outcome in *.
  destruct (insert_raises h _) as [e|].
  { exfalso. cbn [events] in Hin. destruct Hin as [<- | Hin].
    - destruct Hkind as [[] | [patch Hp]]. discriminate Hp.
    - apply handleError_events in Hin. subst ev.
      destruct Hkind as [[] | [patch Hp]]. discriminate Hp. }
  destruct (update_raises h _) as [e|]; [|reflexivity].
  exfalso. cbn [events] in Hin. destruct Hin as [<- | [<- | Hin]].
  - destruct Hkind as [[] | [patch Hp]]. discriminate Hp.
  - destruct Hkind as [[] | [patch Hp]]. discriminate Hp.
  - apply handleError_events in Hin. subst ev.
    destruct Hkind as [[] | [patch Hp]]. discriminate Hp.
Qed.


(** X4.  When the insert of the tracking record raises, the ingest ends
    there: the booking is not updated, no sample is handed to any socket, the
    sender's liveness stamp stays refreshed, and the exception is reported to
    the sender when its socket is open. *)
Theorem insert_failure_ends_the_ingest
    (h : Host) (m : Registry) (k : WS) (data : Msg.t)
    (row : Db.LocationTracking) (e : Text) :
  In (Insert row (Some e)) (events (handleMessage k (ParsedData data) h m)) ->
  events (handleMessage k (ParsedData data) h m)
  = Insert row (Some e)
    :: events (handleError k e h (map_mutate m k (set_lastPing (Date_now h))))
  /\ Forall (fun ev => ~ is_fanout ev /\ forall patch raised, ev <> Update patch raised)
            (events (handleMessage k (ParsedData data) h m))
  /\ registry (handleMessage k (ParsedData data) h m)
     = map_mutate m k (set_lastPing (Date_now h))
  /\ (readyState h k = OPEN ->
      In (Send k (FError (reported e)) (send_raises h k (FError (reported e))))
         (events (handleMessage k (ParsedData data) h m))).
Proof.
  intro Hin.
  destruct (store_reached k data h m _ Hin (or_introl I))
    as [c [lat [lon [spd [hdg [_ [_ [_ [_ [_ [_ Hrun]]]]]]]]]]].
  rewrite Hrun in Hin |- *. unfold ingest_outcome in *.
  destruct (insert_raises h _) as [e0|].
  - cbn [events registry] in *.
    destruct Hin as [Heq | Hin];
      [|apply handleError_events in Hin; discriminate Hin].
    injection Heq as <- <-.
    split; [reflexivity|]. split; [|split; [reflexivity|]].
    + constructor.
      * split; [simpl; tauto | discriminate].
      * apply Forall_forall. intros ev Hev.
        apply handleError_events in Hev. subst ev.
        split; [simpl; tauto | discriminate].
    + intro Ho. right. rewrite (handleError_open _ _ _ _ Ho). now left.
  - exfalso. destruct (update_raises h _) as [e0|]; cbn [events] in Hin.
    + destruct Hin as [Hin | [Hin | Hin]]; try discriminate Hin.
      apply handleError_events in Hin. discriminate Hin.
    + destruct Hin as [Hin | [Hin | Hin]]; try discriminate Hin.
      apply broadcast_events in Hin as [r [c0 [_ [_ Hin]]]]. discriminate Hin.
Qed.

Lemma insert_failure_ends_the_ingest_witness :
  events (handleMessage 1%nat (ParsedData sample5)
            (mkHost 1000 1000 (fun _ => OPEN) (fun _ _ => None)
                    (fun _ => Some (Lit "relation does not exist"))
                    (fun _ => None))
            [(1%nat, driver 1 10); (2%nat, passenger 2 5 10)])
  = [Insert (Db.mkRow (num 5) (Dec 1.5) (Dec 2) None None "active")
            (Some (Lit "relation does not exist"));
     Send 1%nat (FError "relation does not exist") None].
Proof.
  rewrite (proj1 (insert_failure_ends_the_ingest
                    (mkHost 1000 1000 (fun _ => OPEN) (fun _ _ => None)
                            (fun _ => Some (Lit "relation does not exist"))
                            (fun _ => None))
                    [(1%nat, driver 1 10); (2%nat, passenger 2 5 10)] 1%nat sample5
                    (Db.mkRow (num 5) (Dec 1.5) (Dec 2) None None "active")
                    (Lit "relation does not exist") (or_introl eq_refl))).
  reflexivity.
Defined.

(** X5.  A sample is handed to a socket only after it has been stored: when
    the events of a frame contain a location update, they begin with the
    insert and the update, both gone through, for the booking of the sample,
    and everything after them is the fan-out. *)
Theorem fanout_follows_both_writes
    (h : Host) (m : Registry) (k : WS) (data : Msg.t) (ev : Event) :
  In ev (events (handleMessage k (ParsedData data) h m)) ->
  is_fanout ev ->
  exists row patch rest,
    events (handleMessage k (ParsedData data) h m)
    = Insert row None :: Update patch None :: rest
    /\ Db.bookingId row = Msg.bookingId data
    /\ Db.where_id patch = Msg.bookingId data
    /\ Forall is_fanout rest
    /\ is_str (Msg.type data) "location_update" = true
    /\ truthy (Msg.bookingId data) = true.
Proof.
  intros Hin Hf.
  pose proof (writes_need_location k data h m ev Hin (or_intror Hf)) as Hl.
  destruct (fanout_shape k data h m ev Hin (or_introl Hf))
    as [lat [lon [spd [hdg [Hb Hrun]]]]].
  rewrite Hrun. cbn [events]. do 3 eexists.
  split; [reflexivity|]. repeat split; try assumption.
  apply Forall_forall. intros ev0 Hev.
  apply broadcast_events in Hev as [r [c [_ [_ ->]]]]. exact I.
Qed.

Lemma fanout_follows_both_writes_witness :
  exists row patch rest,
    events (handleMessage 1%nat (ParsedData sample5) (calm 1000)
              [(1%nat, driver 1 10); (2%nat, passenger 2 5 10)])
    = Insert row None :: Update patch None :: rest
    /\ Db.bookingId row = Msg.bookingId sample5
    /\ Db.where_id patch = Msg.bookingId sample5
    /\ Forall is_fanout rest
    /\ is_str (Msg.type sample5) "location_update" = true
    /\ truthy (Msg.bookingId sample5) = true.
Proof.
  apply (fanout_follows_both_writes (calm 1000)
           [(1%nat, driver 1 10); (2%nat, passenger 2 5 10)] 1%nat sample5
           (Send 2%nat (FLocationUpdate sample5) None)).
  - right. right. left. reflexivity.
  - exact I.
Defined.




(** X7.  The two writes of one frame agree: the update is attempted only
    after the insert went through, it addresses the booking of the recorded
    row, which is the booking of the sample, and it carries the rendered
    coordinates that were recorded; the row is marked active. *)
Theorem booking_update_matches_tracking_row
    (h : Host) (m : Registry) (k : WS) (data : Msg.t)
    (row : Db.LocationTracking) (patch : Db.BookingsUpdate)
    (inserted updated : option Text) :
  In (Insert row inserted) (events (handleMessage k (ParsedData data) h m)) ->
  In (Update patch updated) (events (handleMessage k (ParsedData data) h m)) ->
  inserted = None
  /\ Db.bookingId row = Msg.bookingId data
  /\ Db.where_id patch = Db.bookingId row
  /\ Db.lastKnownLatitude patch = Db.latitude row
  /\ Db.lastKnownLongitude patch = Db.longitude row
  /\ Db.lastLocationUpdate patch = new_Date h
  /\ Db.status row = "active"
  /\ toString (Msg.latitude data) = Ok (Db.latitude row)
  /\ toString (Msg.longitude data) = Ok (Db.longitude row).
Proof.
  intros Hins Hupd.
  destruct (store_reached k data h m _ Hins (or_introl I))
    as [c [lat [lon [spd [hdg [_ [_ [Hlat [Hlon [_ [_ Hrun]]]]]]]]]]].
  rewrite Hrun in Hins, Hupd. unfold ingest_outcome in *.
  assert (Hherr : forall e m0 r o, ~ In (Insert r o) (events (handleError k e h m0))).
  { intros e m0 r o Hin. apply handleError_events in Hin. discriminate Hin. }
  assert (Hherr' : forall e m0 p o, ~ In (Update p o) (events (handleError k e h m0))).
  { intros e m0 p o Hin. apply handleError_events in Hin. discriminate Hin. }
  assert (Hbc : forall m0 r o, ~ In (Insert r o) (events (broadcastLocationUpdate data h m0))).
  { intros m0 r o Hin. apply broadcast_no_write in Hin. apply Hin. exact I. }
  assert (Hbc' : forall m0 p o, ~ In (Update p o) (events (broadcastLocationUpdate data h m0))).
  { intros m0 p o Hin. apply broadcast_no_write in Hin. apply Hin. exact I. }
  destruct (insert_raises h _) as [e0|].
  { exfalso. cbn [events] in Hupd. destruct Hupd as [Hupd | Hupd].
    - discriminate Hupd.
    - exact (Hherr' _ _ _ _ Hupd). }
  destruct (update_raises h _) as [e0|]; cbn [events] in Hins, Hupd.
  - destruct Hins as [Hins | [Hins | Hins]];
      [| discriminate Hins | exfalso; exact (Hherr _ _ _ _ Hins)].
    destruct Hupd as [Hupd | [Hupd | Hupd]];
      [discriminate Hupd | | exfalso; exact (Hherr' _ _ _ _ Hupd)].
    injection Hins as <- <-. injection Hupd as <- <-.
    repeat split; assumption.
  - destruct Hins as [Hins | [Hins | Hins]];
      [| discriminate Hins | exfalso; exact (Hbc _ _ _ Hins)].
    destruct Hupd as [Hupd | [Hupd | Hupd]];
      [discriminate Hupd | | exfalso; exact (Hbc' _ _ _ Hupd)].
    injection Hins as <- <-. injection Hupd as <- <-.
    repeat split; assumption.
Qed.

Lemma booking_update_matches_tracking_row_witness :
  Db.where_id (Db.mkUpdate (Dec 1.5) (Dec 2) 1000 (num 5)) = num 5
  /\ Db.lastKnownLatitude (Db.mkUpdate (Dec 1.5) (Dec 2) 1000 (num 5)) = Dec 1.5.
Proof.
  destruct (booking_update_matches_tracking_row (calm 1000)
              [(1%nat, driver 1 10); (2%nat, passenger 2 5 10)] 1%nat sample5
              (Db.mkRow (num 5) (Dec 1.5) (Dec 2) None None "active")
              (Db.mkUpdate (Dec 1.5) (Dec 2) 1000 (num 5)) None None
              (or_introl eq_refl) (or_intror (or_introl eq_refl)))
    as [_ [_ [Hid [Hlat _]]]].
  split; [exact Hid | exact Hlat].
Defined.







(** ** The other frames of an initialized session *)

Lemma ping_dispatch (k : WS) (c : TrackingClient) (data : Msg.t)
    (h : Host) (m : Registry) :
  map_get m k = Some c ->
  is_str (Msg.type data) "ping" = true ->
  handleMessage k (ParsedData data) h m
  = catch (handle_ping k (Some c)) (fun error => handleError k error) h m.
Proof.
  intros Hc Hp. rewrite handleMessage_dispatch.
  - unfold dispatch. rewrite Hc, Hp.
    rewrite (is_str_exclusive _ _ "init" Hp); [|discriminate].
    rewrite (is_str_exclusive _ _ "subscribe_tracking" Hp); [|discriminate].
    rewrite (is_str_exclusive _ _ "location_update" Hp); [|discriminate].
    reflexivity.
  - apply (is_str_truthy _ _ Hp). discriminate.
  - now rewrite Hc.
Qed.

(** X10.  A [ping] frame on an initialized session refreshes the liveness
    stamp and nothing else of the record (the subscription stays), answers
    [pong], and leaves the entries of the registry in their order; when the
    send of the [pong] raises, the stamp stays refreshed and the exception
    is reported. *)
Theorem ping_refreshes_liveness
    (h : Host) (m : Registry) (k : WS) (c : TrackingClient) (data : Msg.t) :
  map_get m k = Some c ->
  is_str (Msg.type data) "ping" = true ->
  registry (handleMessage k (ParsedData data) h m)
  = map_mutate m k (set_lastPing (Date_now h))
  /\ map_get (registry (handleMessage k (ParsedData data) h m)) k
     = Some (mkClient (ws c) (bookingId c) (userId c) (role c) (Some (Date_now h)))
  /\ keys (registry (handleMessage k (ParsedData data) h m)) = keys m
  /\ events (handleMessage k (ParsedData data) h m)
     = Send k FPong (send_raises h k FPong)
       :: match send_raises h k FPong with
          | None => []
          | Some e => events (handleError k e h
                                (map_mutate m k (set_lastPing (Date_now h))))
          end.
Proof.
  intros Hc Hp.
  rewrite (ping_dispatch k c data h m Hc Hp).
  rewrite catch_handleError_registry, catch_handleError_events, handle_ping_run.
  cbn [registry events result].
  split; [reflexivity|]. split; [|split].
  - rewrite map_get_mutate, Nat.eqb_refl, Hc. reflexivity.
  - apply keys_mutate.
  - destruct (send_raises h k FPong); reflexivity.
Qed.

Lemma ping_refreshes_liveness_witness :
  map_get (registry (handleMessage 2%nat (ParsedData msg_ping) (calm 1000)
                       [(2%nat, passenger 2 5 10)])) 2%nat
  = Some (mkClient 2%nat (num 5) (num 8) (JStr "passenger") (Some 1000)).
Proof.
  exact (proj1 (proj2 (ping_refreshes_liveness (calm 1000)
                         [(2%nat, passenger 2 5 10)] 2%nat (passenger 2 5 10)
                         msg_ping eq_refl eq_refl))).
Defined.

(** X11.  A [subscribe_tracking] frame on an initialized session.  With a
    truthy bookingId it binds the session to that bookingId, refreshes the
    stamp, keeps userId and role, and answers [subscribe_success] with the
    bookingId echoed.  With a bookingId that is absent or falsy (the number 0
    included) it is answered like [handleError] answers "bookingId is
    required for tracking subscription": the registry stays as it was, the
    stamp is not refreshed and an earlier subscription is kept. *)
Theorem subscribe_binds_or_rejects
    (h : Host) (m : Registry) (k : WS) (c : TrackingClient) (data : Msg.t) :
  map_get m k = Some c ->
  is_str (Msg.type data) "subscribe_tracking" = true ->
  (truthy (Msg.bookingId data) = true ->
   map_get (registry (handleMessage k (ParsedData data) h m)) k
   = Some (mkClient (ws c) (Msg.bookingId data) (userId c) (role c)
                    (Some (Date_now h)))
   /\ exists rest,
        events (handleMessage k (ParsedData data) h m)
        = Send k (FSubscribeSuccess (Msg.bookingId data))
               (send_raises h k (FSubscribeSuccess (Msg.bookingId data)))
          :: rest
        /\ (send_raises h k (FSubscribeSuccess (Msg.bookingId data)) = None ->
            rest = []))
  /\ (truthy (Msg.bookingId data) = false ->
      handleMessage k (ParsedData data) h m
      = handleError k "bookingId is required for tracking subscription" h m
      /\ registry (handleMessage k (ParsedData data) h m) = m).
Proof.
  intros Hc Hs. split; intro Hb.
  - split.
    + rewrite (subscribe_registry k c data h m Hc Hs), Hb.
      rewrite map_get_mutate, Nat.eqb_refl, Hc. reflexivity.
    + rewrite (subscribe_dispatch k c data h m Hc Hs).
      rewrite catch_handleError_events, handle_subscribe_run, Hb.
      cbn [events result]. eexists. split; [reflexivity|].
      intro Hsend. rewrite Hsend. reflexivity.
  - rewrite (subscribe_dispatch k c data h m Hc Hs).
    rewrite catch_run, handle_subscribe_run, Hb.
    cbn [result registry events app]. rewrite handleError_run.
    split; reflexivity.
Qed.

Lemma subscribe_binds_or_rejects_witness :
  handleMessage 2%nat (ParsedData (msg_subscribe (num 0))) (calm 1000)
                [(2%nat, passenger 2 5 10)]
  = mkRun [(2%nat, passenger 2 5 10)]
          [Send 2%nat (FError "bookingId is required for tracking subscription")
                None]
          (Ok tt).
Proof.
  rewrite (proj1 (proj2 (subscribe_binds_or_rejects (calm 1000)
                           [(2%nat, passenger 2 5 10)] 2%nat (passenger 2 5 10)
                           (msg_subscribe (num 0)) eq_refl eq_refl)
                    eq_refl)).
  reflexivity.
Defined.

(** X12.  A [location_update] frame of an initialized session in which
    bookingId, latitude or longitude is absent or falsy is answered like
    [handleError] answers "Invalid location update data"; the registry stays
    as it was, so the rejected frame does not even count as a sign of life. *)
Theorem location_with_missing_field_is_rejected
    (h : Host) (m : Registry) (k : WS) (c : TrackingClient) (data : Msg.t) :
  map_get m k = Some c ->
  is_str (Msg.type data) "location_update" = true ->
  truthy (Msg.bookingId data) = false
  \/ truthy (Msg.latitude data) = false
  \/ truthy (Msg.longitude data) = false ->
  handleMessage k (ParsedData data) h m
  = handleError k "Invalid location update data" h m
  /\ map_get (registry (handleMessage k (ParsedData data) h m)) k = Some c.
Proof.
  intros Hc Hl Hmiss.
  assert (Hrun : handleMessage k (ParsedData data) h m
                 = handleError k "Invalid location update data" h m).
  { rewrite (location_dispatch k c data h m Hc Hl), catch_run.
    rewrite handle_location_invalid.
    - cbn [result registry events app]. apply run_eta.
    - destruct Hmiss as [H | [H | H]]; rewrite H;
        [reflexivity | now rewrite andb_false_r | now rewrite andb_false_r]. }
  split; [exact Hrun|]. rewrite Hrun, handleError_run. exact Hc.
Qed.

Lemma location_with_missing_field_is_rejected_witness :
  handleMessage 1%nat (ParsedData (msg_location (num 5) (num 1.5) JUndefined))
                (calm 1000) [(1%nat, driver 1 10)]
  = mkRun [(1%nat, driver 1 10)]
          [Send 1%nat (FError "Invalid location update data") None] (Ok tt).
Proof.
  rewrite (proj1 (location_with_missing_field_is_rejected (calm 1000)
                    [(1%nat, driver 1 10)] 1%nat (driver 1 10)
                    (msg_location (num 5) (num 1.5) JUndefined)
                    eq_refl eq_refl (or_intror (or_intror eq_refl)))).
  reflexivity.
Defined.

(** X13.  A frame whose type is none of [init], [subscribe_tracking],
    [location_update] and [ping] changes nothing in the registry, not even
    the sender's stamp, and reaches no socket but the sender's.  On an
    initialized session, a type that can be rendered is reported as "Unknown
    message type: " followed by the type. *)
Theorem unknown_type_changes_nothing
    (h : Host) (m : Registry) (k : WS) (data : Msg.t) :
  unknown_type data ->
  registry (handleMessage k (ParsedData data) h m) = m
  /\ Forall (reply_to k) (events (handleMessage k (ParsedData data) h m))
  /\ (forall c shown,
         map_get m k = Some c ->
         truthy (Msg.type data) = true ->
         template (Msg.type data) = Ok shown ->
         handleMessage k (ParsedData data) h m
         = handleError k (Cat "Unknown message type: " shown) h m).
Proof.
  intros [Hi [Hs [Hl Hp]]].
  assert (Hrun : exists e, handleMessage k (ParsedData data) h m = handleError k e h m
                           /\ (forall c shown,
                                  map_get m k = Some c ->
                                  truthy (Msg.type data) = true ->
                                  template (Msg.type data) = Ok shown ->
                                  e = Cat "Unknown message type: " shown)).
  { cbn [handleMessage].
    destruct (truthy (Msg.type data)) eqn:Ht; cbn [negb].
    2:{ eexists. split; [reflexivity|]. discriminate. }
    unfold bind at 1, clients_get. cbn [result registry events app].
    rewrite Hi. cbn [negb]. rewrite andb_true_r.
    destruct (map_get m k) as [c|] eqn:Hc; cbn [is_none].
    2:{ exists (Lit "Client not initialized"). split; [|discriminate].
        apply run_eta. }
    rewrite catch_run. unfold dispatch. rewrite Hi, Hs, Hl, Hp.
    unfold handle_unknown. rewrite bind_lift.
    destruct (template (Msg.type data)) as [shown|e].
    - exists (Cat "Unknown message type: " shown).
      cbn [throw result registry events app].
      split; [|congruence]. rewrite handleError_run. reflexivity.
    - exists e. cbn [throw result registry events app].
      split; [|discriminate]. rewrite handleError_run. reflexivity. }
  destruct Hrun as [e [Hrun Hmsg]].
  split; [|split].
  - rewrite Hrun, handleError_run. reflexivity.
  - rewrite Hrun. apply Forall_forall. intros ev Hin.
    apply handleError_events in Hin. subst ev. simpl. tauto.
  - intros c shown Hc Ht Hsh. rewrite Hrun. f_equal. eauto.
Qed.

Lemma unknown_type_changes_nothing_witness :
  handleMessage 1%nat
    (ParsedData (Msg.mk (JStr "hello") JUndefined JUndefined JUndefined
                        JUndefined JUndefined JUndefined JUndefined))
    (calm 1000) [(1%nat, driver 1 10)]
  = handleError 1%nat (Cat "Unknown message type: " "hello") (calm 1000)
                [(1%nat, driver 1 10)].
Proof.
  apply (proj2 (proj2 (unknown_type_changes_nothing (calm 1000)
                         [(1%nat, driver 1 10)] 1%nat
                         (Msg.mk (JStr "hello") JUndefined JUndefined JUndefined
                                 JUndefined JUndefined JUndefined JUndefined)
                         (conj eq_refl (conj eq_refl (conj eq_refl eq_refl)))))
           (driver 1 10) (Lit "hello") eq_refl eq_refl eq_refl).
Defined.

(** ** Closing a socket *)

Lemma map_delete_absent (m : Registry) (k : WS) :
  map_get m k = None -> map_delete m k = m.
Proof.
  unfold map_delete.
  induction m as [|[k' c] rest IH]; simpl; [reflexivity|].
  destruct (Nat.eqb k' k); [discriminate|].
  intro H. simpl. now rewrite IH.
Qed.

Lemma map_delete_set (m : Registry) (k : WS) (c : TrackingClient) :
  map_delete (map_set m k c) k = map_delete m k.
Proof.
  unfold map_delete.
  induction m as [|[k' c'] rest IH]; simpl.
  - now rewrite Nat.eqb_refl.
  - destruct (Nat.eqb k' k) eqn:E; simpl.
    + now rewrite Nat.eqb_refl.
    + now rewrite E, IH.
Qed.

Lemma map_delete_mutate (m : Registry) (k : WS) (f : TrackingClient -> TrackingClient) :
  map_delete (map_mutate m k f) k = map_delete m k.
Proof.
  unfold map_delete.
  induction m as [|[k' c] rest IH]; simpl; [reflexivity|].
  destruct (Nat.eqb k' k) eqn:E; simpl; rewrite E; simpl; [reflexivity|].
  now rewrite IH.
Qed.

(** X14.  Closing a socket forgets its session and only that: the other
    sessions stay what they were, a later broadcast hands the closed socket
    nothing, and a later frame on it, other than [init], is refused as on a
    socket that never initialized.  Closing a socket that has no session
    leaves the registry as it is. *)
Theorem close_forgets_exactly_one_session
    (h : Host) (m : Registry) (k : WS) :
  map_get (registry (handleClose k h m)) k = None
  /\ others_untouched k m (registry (handleClose k h m))
  /\ events (handleClose k h m) = []
  /\ (map_get m k = None -> registry (handleClose k h m) = m)
  /\ (forall h' update,
         Forall (fun ev => ~ update_sent_to k ev)
                (events (broadcastLocationUpdate update h'
                           (registry (handleClose k h m)))))
  /\ (forall h' data,
         truthy (Msg.type data) = true ->
         is_str (Msg.type data) "init" = false ->
         handleMessage k (ParsedData data) h' (registry (handleClose k h m))
         = handleError k "Client not initialized" h'
                       (registry (handleClose k h m))).
Proof.
  cbn [handleClose clients_delete registry events].
  assert (Hgone : map_get (map_delete m k) k = None).
  { rewrite map_get_delete, Nat.eqb_refl. reflexivity. }
  split; [exact Hgone|]. split; [|split; [reflexivity|split; [|split]]].
  - intros r Hr. rewrite map_get_delete.
    destruct (Nat.eqb r k) eqn:E; [|reflexivity].
    apply Nat.eqb_eq in E. contradiction.
  - apply map_delete_absent.
  - intros h' update. apply Forall_forall.
    intros ev Hin [sample [raised Hev]].
    apply broadcast_events in Hin as [r [c [Hin [_ Hat]]]].
    rewrite Hev in Hat. unfold attempt in Hat; simpl in Hat.
    injection Hat as -> _ _.
    unfold map_delete in Hin. apply filter_In in Hin as [_ Hne].
    simpl in Hne. now rewrite Nat.eqb_refl in Hne.
  - intros h' data Ht Hi.
    now apply handleMessage_not_initialized.
Qed.

Lemma session_leaves_no_mark (k : WS) (h : Host) (data : Msg.t) (m : Registry) :
  is_str (Msg.type data) "location_update" = false ->
  map_delete (registry (handleMessage k (ParsedData data) h m)) k = map_delete m k.
Proof.
  intro Hl.
  apply (steps_handleMessage (fun m0 m1 => map_delete m1 k = map_delete m0 k)
                             k data h).
  - reflexivity.
  - intros m1 m2 m3 H12 H23. now rewrite H23.
  - intros m0 c. apply map_delete_set.
  - intros m0 f. apply map_delete_mutate.
  - rewrite Hl. discriminate.
Qed.

(** X15.  The life of a session leaves no trace.  For a socket that has no
    session: the connection greeting, then any frames on that socket other
    than [location_update] (inits, subscribes, pings, malformed ones, under
    any hosts), then the close, give back the registry that was there, with
    every other session in its place. *)
Theorem session_lifecycle_round_trip
    (h0 h1 : Host) (m : Registry) (k : WS) (frames : list (Host * Msg.t)) :
  map_get m k = None ->
  Forall (fun f => is_str (Msg.type (snd f)) "location_update" = false) frames ->
  registry (handleClose k h1
              (session_frames k frames (registry (onConnection k h0 m)))) = m.
Proof.
  intros Hk Hall.
  assert (Hconn : registry (onConnection k h0 m) = m).
  { unfold onConnection. rewrite bind_ask.
    destruct (ReadyState_eqb (readyState h0 k) OPEN); [|reflexivity].
    rewrite catch_run. unfold send, ret. cbn [result registry events].
    now destruct (send_raises h0 k FConnectionEstablished). }
  rewrite Hconn. cbn [handleClose clients_delete registry].
  rewrite <- (map_delete_absent m k Hk) at 2.
  clear Hconn Hk. revert m.
  induction frames as [|[h data] rest IH]; intro m; [reflexivity|].
  inversion Hall as [|? ? Hl Hrest]; subst. simpl in Hl.
  unfold session_frames in *. cbn [fold_left fst snd].
  rewrite (IH Hrest). now apply session_leaves_no_mark.
Qed.

Lemma session_lifecycle_round_trip_witness :
  registry (handleClose 1%nat (calm 4000)
              (session_frames 1%nat
                 [(calm 1000, msg_init (num 7) (JStr "driver"));
                  (calm 2000, msg_subscribe (num 5));
                  (calm 3000, msg_ping)]
                 (registry (onConnection 1%nat (calm 500)
                              [(2%nat, passenger 2 5 10)]))))
  = [(2%nat, passenger 2 5 10)].
Proof.
  apply (session_lifecycle_round_trip (calm 500) (calm 4000)
           [(2%nat, passenger 2 5 10)] 1%nat
           [(calm 1000, msg_init (num 7) (JStr "driver"));
            (calm 2000, msg_subscribe (num 5));
            (calm 3000, msg_ping)]
           eq_refl).
  repeat constructor.
Defined.

(** X16.  The connection greeting never registers a session and never
    raises: [connection_established] is handed to a socket that is open, a
    raising send is swallowed, and a socket in any other state is sent
    nothing.  The first frame of the new socket, unless it is an [init], is
    therefore refused. *)
Theorem connection_registers_nothing
    (h h' : Host) (m : Registry) (k : WS) (data : Msg.t) :
  map_get m k = None ->
  truthy (Msg.type data) = true ->
  is_str (Msg.type data) "init" = false ->
  onConnection k h m
  = mkRun m
          (if ReadyState_eqb (readyState h k) OPEN
           then [Send k FConnectionEstablished
                      (send_raises h k FConnectionEstablished)]
           else [])
          (Ok tt)
  /\ handleMessage k (ParsedData data) h' (registry (onConnection k h m))
     = handleError k "Client not initialized" h' m.
Proof.
  intros Hk Ht Hi.
  assert (Hconn : onConnection k h m
                  = mkRun m
                      (if ReadyState_eqb (readyState h k) OPEN
                       then [Send k FConnectionEstablished
                                  (send_raises h k FConnectionEstablished)]
                       else [])
                      (Ok tt)).
  { unfold onConnection. rewrite bind_ask.
    destruct (ReadyState_eqb (readyState h k) OPEN); [|reflexivity].
    rewrite catch_run. unfold send, ret. cbn [result registry events app].
    now destruct (send_raises h k FConnectionEstablished). }
  split; [exact Hconn|]. rewrite Hconn. cbn [registry].
  now apply handleMessage_not_initialized.
Qed.

Lemma connection_registers_nothing_witness :
  onConnection 1%nat (flaky 1 1000) [(2%nat, passenger 2 5 10)]
  = mkRun [(2%nat, passenger 2 5 10)]
          [Send 1%nat FConnectionEstablished (Some (Lit "write EPIPE"))]
          (Ok tt).
Proof.
  exact (proj1 (connection_registers_nothing (flaky 1 1000) (calm 2000)
                  [(2%nat, passenger 2 5 10)] 1%nat (msg_subscribe (num 5))
                  eq_refl eq_refl eq_refl)).
Defined.

(** ** The sweeps in closed form *)

Lemma filter_twice {A} (f g : A -> bool) (l : list A) :
  filter f (filter g l) = filter (fun x => g x && f x) l.
Proof.
  induction l as [|x l IH]; simpl; [reflexivity|].
  destruct (g x); simpl; [|exact IH].
  destruct (f x); now rewrite IH.
Qed.

Lemma delete_all_filter (ks : list WS) (m : Registry) :
  delete_all ks m = filter (fun e => negb (existsb (Nat.eqb (fst e)) ks)) m.
Proof.
  unfold delete_all. revert m.
  induction ks as [|k ks IH]; intro m; simpl.
  - induction m as [|e m IHm]; simpl; [reflexivity | now rewrite <- IHm].
  - rewrite IH. unfold map_delete. rewrite filter_twice.
    apply filter_ext. intro e. now rewrite negb_orb.
Qed.

(** Deleting the keys of the entries that pass a test, from a registry that
    holds each key once, keeps the entries that fail it, in their order. *)
Lemma delete_filtered_keys (p : WS * TrackingClient -> bool) (m : Registry) :
  wf_registry m ->
  delete_all (keys (filter p m)) m = filter (fun e => negb (p e)) m.
Proof.
  intro Hwf. rewrite delete_all_filter.
  apply filter_ext_in. intros [k c] Hin. f_equal. cbn [fst].
  destruct (p (k, c)) eqn:Hp.
  - apply existsb_exists. exists k. split; [|apply Nat.eqb_refl].
    eapply filtered_key; eauto.
  - destruct (existsb (Nat.eqb k) (keys (filter p m))) eqn:E; [|reflexivity].
    apply existsb_exists in E as [k' [Hk' Heq]].
    apply Nat.eqb_eq in Heq; subst k'.
    apply (key_filtered _ _ _ _ Hwf Hin) in Hk'. congruence.
Qed.

(** X17.  The stale sweep in closed form: it keeps exactly the sessions that
    are not stale, in the order they had, sends nothing and does not raise.
    A session is stale when its socket is closed or closing, or when its
    stamp reads as true and is more than 120000 ms old. *)
Theorem stale_sweep_keeps_exactly_the_fresh
    (h : Host) (m : Registry) :
  wf_registry m ->
  cleanupStaleConnections h m
  = mkRun (filter (fun e => negb (stale h (Date_now h) e)) m) [] (Ok tt).
Proof.
  intro Hwf. rewrite cleanup_run. f_equal. now apply delete_filtered_keys.
Qed.

Lemma stale_sweep_keeps_exactly_the_fresh_witness :
  cleanupStaleConnections (hung_up 3 200000)
    [(1%nat, driver 1 150000); (2%nat, passenger 2 5 10);
     (3%nat, passenger 3 5 190000); (4%nat, passenger 4 9 80000)]
  = mkRun [(1%nat, driver 1 150000); (4%nat, passenger 4 9 80000)] [] (Ok tt).
Proof.
  rewrite stale_sweep_keeps_exactly_the_fresh; [reflexivity|].
  unfold wf_registry; simpl. repeat constructor; simpl; intuition discriminate.
Defined.

(** X18.  Sweeping twice is sweeping once: a second stale sweep under the
    same clock and socket states removes nothing. *)
Theorem stale_sweep_is_idempotent (h : Host) (m : Registry) :
  registry (cleanupStaleConnections h (registry (cleanupStaleConnections h m)))
  = registry (cleanupStaleConnections h m).
Proof.
  rewrite !cleanup_run. cbn [registry].
  set (m' := delete_all (keys (filter (stale h (Date_now h)) m)) m).
  assert (Hnone : filter (stale h (Date_now h)) m' = []).
  { destruct (filter (stale h (Date_now h)) m') as [|[k c] rest] eqn:E;
      [reflexivity|].
    exfalso.
    assert (Hin : In (k, c) (filter (stale h (Date_now h)) m'))
      by (rewrite E; now left).
    apply filter_In in Hin as [Hin Hs]. unfold m' in Hin.
    apply in_delete_all in Hin as [Hin Hk]. apply Hk.
    eapply filtered_key; eauto. }
  rewrite Hnone. reflexivity.
Qed.

(** X19.  A session whose stamp is absent or 0 is never removed for its age:
    whatever the clock reads, the stale sweep keeps it as long as its socket
    is neither closed nor closing. *)
Theorem unstamped_session_never_ages_out
    (h : Host) (m : Registry) (k : WS) (c : TrackingClient) :
  wf_registry m ->
  map_get m k = Some c ->
  lastPing_truthy c = false ->
  readyState h k <> CLOSED ->
  readyState h k <> CLOSING ->
  map_get (registry (cleanupStaleConnections h m)) k = Some c.
Proof.
  intros Hwf Hc Hstamp Hclosed Hclosing.
  rewrite cleanup_run. cbn [registry]. rewrite map_get_delete_all.
  destruct (existsb (Nat.eqb k) (keys (filter (stale h (Date_now h)) m))) eqn:E;
    [|exact Hc].
  exfalso. apply existsb_exists in E as [k' [Hk' Heq]].
  apply Nat.eqb_eq in Heq; subst k'.
  apply (key_filtered _ _ _ _ Hwf (map_get_in _ _ _ Hc)) in Hk'.
  unfold stale in Hk'. cbn [fst snd] in Hk'. rewrite Hstamp in Hk'.
  destruct (readyState h k); simpl in Hk'; congruence.
Qed.

Lemma unstamped_session_never_ages_out_witness :
  map_get (registry (cleanupStaleConnections (calm 999999999)
                       [(1%nat, mkClient 1%nat JUndefined (num 7) (JStr "driver")
                                         (Some 0))])) 1%nat
  = Some (mkClient 1%nat JUndefined (num 7) (JStr "driver") (Some 0)).
Proof.
  apply (unstamped_session_never_ages_out (calm 999999999)
           [(1%nat, mkClient 1%nat JUndefined (num 7) (JStr "driver") (Some 0))]
           1%nat (mkClient 1%nat JUndefined (num 7) (JStr "driver") (Some 0))).
  - unfold wf_registry; simpl. repeat constructor. simpl. tauto.
  - reflexivity.
  - reflexivity.
  - simpl. discriminate.
  - simpl. discriminate.
Defined.

(** X20.  The broadcast in closed form: it hands the sample to the matching
    open sessions in registry order, removes exactly those whose send raised,
    keeps every other entry unchanged and in place, and does not raise. *)
Theorem broadcast_removes_exactly_the_failed
    (h : Host) (m : Registry) (update : Msg.t) :
  wf_registry m ->
  broadcastLocationUpdate update h m
  = mkRun (filter (fun e => negb (dropped update h e)) m)
          (map (attempt update h) (filter (matches update h) m))
          (Ok tt).
Proof.
  intro Hwf. rewrite broadcast_run. f_equal. now apply delete_filtered_keys.
Qed.

Lemma broadcast_removes_exactly_the_failed_witness :
  broadcastLocationUpdate sample5 (flaky 2 1000)
    [(1%nat, driver 1 10); (2%nat, passenger 2 5 10); (3%nat, passenger 3 5 10)]
  = mkRun [(1%nat, driver 1 10); (3%nat, passenger 3 5 10)]
          [Send 2%nat (FLocationUpdate sample5) (Some (Lit "write EPIPE"));
           Send 3%nat (FLocationUpdate sample5) None]
          (Ok tt).
Proof.
  rewrite broadcast_removes_exactly_the_failed; [reflexivity|].
  unfold wf_registry; simpl. repeat constructor; simpl; intuition discriminate.
Defined.

(** ** The heartbeat sweep *)

Lemma heartbeat_loop_complete (p : Probes) (h : Host) (now : Z)
    (l : list (WS * TrackingClient)) :
  forall m,
    (forall e, In e l -> closes_quietly p now e) ->
    heartbeat_loop p h now l m
    = mkSweep (delete_all (keys (filter (evicted p h now) l)) m)
              (flat_map (heartbeat_call p h now) l)
              (Ok tt).
Proof.
  induction l as [|[k c] rest IH]; intros m Hq; [reflexivity|].
  assert (Hrest : forall e, In e rest -> closes_quietly p now e)
    by (intros e He; apply Hq; now right).
  pose proof (Hq (k, c) (or_introl eq_refl)) as Hk.
  unfold closes_quietly in Hk. cbn [fst snd] in Hk.
  cbn [heartbeat_loop flat_map filter].
  unfold evicted, heartbeat_call. cbn [fst snd].
  destruct (timed_out now c) eqn:Et.
  - destruct (Hk eq_refl) as [[shown Hs] Hc]. rewrite Hs, Hc.
    rewrite (IH _ Hrest). reflexivity.
  - cbn [orb].
    destruct (ReadyState_eqb (readyState h k) OPEN); cbn [andb].
    + destruct (ping_raises p k); cbn [is_some is_none negb];
        rewrite (IH _ Hrest); reflexivity.
    + rewrite (IH _ Hrest). reflexivity.
Qed.

Lemma heartbeat_loop_ok (p : Probes) (h : Host) (now : Z)
    (l : list (WS * TrackingClient)) :
  forall m,
    sweep_result (heartbeat_loop p h now l m) = Ok tt ->
    forall e, In e l -> closes_quietly p now e.
Proof.
  induction l as [|[k c] rest IH]; intros m Hok e He; [destruct He|].
  cbn [heartbeat_loop] in Hok.
  destruct (timed_out now c) eqn:Et.
  - destruct (template (userId c)) as [shown|e0] eqn:Es; [|discriminate Hok].
    destruct (close_raises p k) as [e0|] eqn:Ec; [discriminate Hok|].
    cbn [sweep_result] in Hok.
    destruct He as [<- | He]; [|eapply IH; eauto].
    intros _. cbn [fst snd]. eauto.
  - assert (Hhead : closes_quietly p now (k, c)).
    { unfold closes_quietly. cbn [snd]. rewrite Et. discriminate. }
    destruct (ReadyState_eqb (readyState h k) OPEN).
    + destruct (ping_raises p k); cbn [sweep_result] in Hok;
        (destruct He as [<- | He]; [exact Hhead | eapply IH; eauto]).
    + destruct He as [<- | He]; [exact Hhead | eapply IH; eauto].
Qed.

Lemma heartbeat_complete (p : Probes) (h : Host) (m : Registry) :
  sweep_result (heartbeat p h m) = Ok tt ->
  heartbeat p h m
  = mkSweep (delete_all (keys (filter (evicted p h (Date_now h)) m)) m)
            (flat_map (heartbeat_call p h (Date_now h)) m)
            (Ok tt).
Proof.
  intro Hok. unfold heartbeat in *.
  apply heartbeat_loop_complete.
  now apply (heartbeat_loop_ok p h (Date_now h) m m).
Qed.

(** X21.  A heartbeat sweep that completes leaves no timed-out session: every
    session whose stamp reads as true and is more than 70000 ms old has had
    its socket closed and is gone from the registry, an open socket
    included, and [close] is called on no other socket. *)
Theorem heartbeat_closes_the_timed_out
    (p : Probes) (h : Host) (m : Registry) :
  sweep_result (heartbeat p h m) = Ok tt ->
  (forall k c, In (k, c) (sweep_registry (heartbeat p h m)) ->
               timed_out (Date_now h) c = false)
  /\ (forall k c, In (k, c) m -> timed_out (Date_now h) c = true ->
                  In (Close k None) (sweep_calls (heartbeat p h m))
                  /\ map_get (sweep_registry (heartbeat p h m)) k = None)
  /\ (forall k raised, In (Close k raised) (sweep_calls (heartbeat p h m)) ->
                       exists c, In (k, c) m /\ timed_out (Date_now h) c = true).
Proof.
  intro Hok. rewrite (heartbeat_complete p h m Hok).
  cbn [sweep_registry sweep_calls]. split; [|split].
  - intros k c Hin. apply in_delete_all in Hin as [Hin Hk]. cbn [fst] in Hk.
    destruct (timed_out (Date_now h) c) eqn:Et; [|reflexivity].
    exfalso. apply Hk. apply (filtered_key _ _ _ c Hin).
    unfold evicted. cbn [snd]. now rewrite Et.
  - intros k c Hin Et. split.
    + apply in_flat_map. exists (k, c). split; [exact Hin|].
      unfold heartbeat_call. cbn [fst snd]. rewrite Et. now left.
    + rewrite map_get_delete_all.
      replace (existsb (Nat.eqb k) (keys (filter (evicted p h (Date_now h)) m)))
        with true; [reflexivity|].
      symmetry. apply existsb_exists. exists k. split; [|apply Nat.eqb_refl].
      apply (filtered_key _ _ _ c Hin). unfold evicted. cbn [snd]. now rewrite Et.
  - intros k raised Hin. apply in_flat_map in Hin as [[k' c] [Hin Hcall]].
    unfold heartbeat_call in Hcall. cbn [fst snd] in Hcall.
    destruct (timed_out (Date_now h) c) eqn:Et.
    + destruct Hcall as [Heq | []]. injection Heq as -> _. eauto.
    + destruct (ReadyState_eqb (readyState h k') OPEN);
        [destruct Hcall as [Heq | []]; discriminate Heq | destruct Hcall].
Qed.

Lemma heartbeat_closes_the_timed_out_witness :
  In (Close 2%nat None)
     (sweep_calls (heartbeat gentle (calm 100000)
                     [(1%nat, driver 1 90000); (2%nat, passenger 2 5 10)]))
  /\ map_get (sweep_registry (heartbeat gentle (calm 100000)
                [(1%nat, driver 1 90000); (2%nat, passenger 2 5 10)])) 2%nat
     = None.
Proof.
  exact (proj1 (proj2 (heartbeat_closes_the_timed_out gentle (calm 100000)
                         [(1%nat, driver 1 90000); (2%nat, passenger 2 5 10)]
                         eq_refl))
           2%nat (passenger 2 5 10) (or_intror (or_introl eq_refl)) eq_refl).
Defined.

(** X22.  What a completed heartbeat sweep does to a session that is not
    timed out.  When its socket is not open, nothing: no call is made on the
    socket and the session stays, so a closed socket is not the heartbeat's
    to remove.  When its socket is open it is pinged once; the session stays
    when the ping returns and is removed when the ping raises. *)
Theorem heartbeat_probes_the_live
    (p : Probes) (h : Host) (m : Registry) (k : WS) (c : TrackingClient) :
  wf_registry m ->
  sweep_result (heartbeat p h m) = Ok tt ->
  In (k, c) m ->
  timed_out (Date_now h) c = false ->
  (readyState h k <> OPEN ->
   map_get (sweep_registry (heartbeat p h m)) k = Some c
   /\ forall call, In call (sweep_calls (heartbeat p h m)) -> call_on call <> k)
  /\ (readyState h k = OPEN ->
      (forall call, In call (sweep_calls (heartbeat p h m)) -> call_on call = k ->
                    call = Ping k (ping_raises p k))
      /\ In (Ping k (ping_raises p k)) (sweep_calls (heartbeat p h m))
      /\ map_get (sweep_registry (heartbeat p h m)) k
         = match ping_raises p k with
           | None => Some c
           | Some _ => None
           end).
Proof.
  intros Hwf Hok Hin Et. rewrite (heartbeat_complete p h m Hok).
  cbn [sweep_registry sweep_calls].
  assert (Hcalls : forall call,
             In call (flat_map (heartbeat_call p h (Date_now h)) m) ->
             call_on call = k ->
             In call (heartbeat_call p h (Date_now h) (k, c))).
  { intros call Hcall Hon.
    apply in_flat_map in Hcall as [[k' c'] [Hin' Hcall]].
    assert (k' = k).
    { unfold heartbeat_call in Hcall. cbn [fst snd] in Hcall.
      destruct (timed_out (Date_now h) c');
        [|destruct (ReadyState_eqb (readyState h k') OPEN)];
        simpl in Hcall; try tauto;
        destruct Hcall as [<- | []]; exact Hon. }
    subst k'.
    pose proof (in_map_get _ _ _ Hwf Hin) as G1.
    pose proof (in_map_get _ _ _ Hwf Hin') as G2.
    rewrite G1 in G2. injection G2 as <-. exact Hcall. }
  assert (Hget : map_get (delete_all (keys (filter (evicted p h (Date_now h)) m)) m) k
                 = if evicted p h (Date_now h) (k, c) then None else Some c).
  { rewrite map_get_delete_all.
    destruct (evicted p h (Date_now h) (k, c)) eqn:Ev.
    - replace (existsb (Nat.eqb k) (keys (filter (evicted p h (Date_now h)) m)))
        with true; [reflexivity|].
      symmetry. apply existsb_exists. exists k. split; [|apply Nat.eqb_refl].
      eapply filtered_key; eauto.
    - destruct (existsb (Nat.eqb k) (keys (filter (evicted p h (Date_now h)) m)))
        eqn:E; [|now apply in_map_get].
      apply existsb_exists in E as [k' [Hk' Heq]].
      apply Nat.eqb_eq in Heq; subst k'.
      apply (key_filtered _ _ _ _ Hwf Hin) in Hk'. congruence. }
  assert (Hev : evicted p h (Date_now h) (k, c)
                = ReadyState_eqb (readyState h k) OPEN && is_some (ping_raises p k)).
  { unfold evicted. cbn [fst snd]. now rewrite Et. }
  rewrite Hev in Hget.
  unfold heartbeat_call in Hcalls. cbn [fst snd] in Hcalls. rewrite Et in Hcalls.
  split; intro Ho.
  - assert (Hno : ReadyState_eqb (readyState h k) OPEN = false).
    { destruct (readyState h k); try reflexivity. contradiction. }
    rewrite Hno in Hget, Hcalls. split; [exact Hget|].
    intros call Hcall Hon. exact (Hcalls call Hcall Hon).
  - rewrite Ho in Hget, Hcalls.
    cbn [ReadyState_eqb andb is_some is_none] in Hget, Hcalls.
    split; [|split].
    + intros call Hcall Hon. destruct (Hcalls call Hcall Hon) as [<- | []].
      reflexivity.
    + apply in_flat_map. exists (k, c). split; [exact Hin|].
      unfold heartbeat_call. cbn [fst snd]. rewrite Et, Ho. now left.
    + rewrite Hget. now destruct (ping_raises p k).
Qed.

Lemma heartbeat_probes_the_live_witness :
  map_get (sweep_registry (heartbeat (deaf 1) (calm 100000)
             [(1%nat, driver 1 90000); (2%nat, passenger 2 5 95000)])) 1%nat
  = None
  /\ map_get (sweep_registry (heartbeat (deaf 1) (calm 100000)
                [(1%nat, driver 1 90000); (2%nat, passenger 2 5 95000)])) 2%nat
     = Some (passenger 2 5 95000).
Proof.
  assert (Hwf : wf_registry [(1%nat, driver 1 90000); (2%nat, passenger 2 5 95000)]).
  { unfold wf_registry; simpl. repeat constructor; simpl; intuition discriminate. }
  split.
  - exact (proj2 (proj2 (proj2 (heartbeat_probes_the_live (deaf 1) (calm 100000)
                      [(1%nat, driver 1 90000); (2%nat, passenger 2 5 95000)]
                      1%nat (driver 1 90000) Hwf eq_refl (or_introl eq_refl) eq_refl)
                    eq_refl))).
  - exact (proj2 (proj2 (proj2 (heartbeat_probes_the_live (deaf 1) (calm 100000)
                      [(1%nat, driver 1 90000); (2%nat, passenger 2 5 95000)]
                      2%nat (passenger 2 5 95000) Hwf eq_refl
                      (or_intror (or_introl eq_refl)) eq_refl)
                    eq_refl))).
Defined.

Lemma heartbeat_loop_raises (p : Probes) (h : Host) (now : Z) (e : Text)
    (l : list (WS * TrackingClient)) :
  forall m,
    sweep_result (heartbeat_loop p h now l m) = Throw e ->
    exists pre k c post,
      l = (pre ++ (k, c) :: post)%list
      /\ timed_out now c = true
      /\ (template (userId c) = Throw e \/ close_raises p k = Some e)
      /\ sweep_registry (heartbeat_loop p h now l m)
         = delete_all (keys (filter (evicted p h now) pre)) m.
Proof.
  induction l as [|[k c] rest IH]; intros m Hthrow; [discriminate Hthrow|].
  cbn [heartbeat_loop] in *.
  assert (Hcons : forall m',
             sweep_result (heartbeat_loop p h now rest m') = Throw e ->
             evicted p h now (k, c) = (if Nat.eqb 0 0 then true else false)
             /\ m' = map_delete m k
             \/ evicted p h now (k, c) = false /\ m' = m ->
             exists pre k0 c0 post,
               (k, c) :: rest = (pre ++ (k0, c0) :: post)%list
               /\ timed_out now c0 = true
               /\ (template (userId c0) = Throw e \/ close_raises p k0 = Some e)
               /\ sweep_registry (heartbeat_loop p h now rest m')
                  = delete_all (keys (filter (evicted p h now) pre)) m).
  { intros m' Hres Hcase.
    destruct (IH m' Hres) as [pre [k0 [c0 [post [Hl [Ht [Hwhy Hreg]]]]]]].
    exists ((k, c) :: pre), k0, c0, post.
    split; [now rewrite Hl|]. split; [exact Ht|]. split; [exact Hwhy|].
    rewrite Hreg. cbn [filter].
    destruct Hcase as [[Hev ->] | [Hev ->]]; rewrite Hev; reflexivity. }
  destruct (timed_out now c) eqn:Et.
  - destruct (template (userId c)) as [shown|e0] eqn:Es.
    + destruct (close_raises p k) as [e0|] eqn:Ec.
      * cbn [sweep_result] in Hthrow. injection Hthrow as ->.
        exists [], k, c, rest. repeat split; auto.
      * cbn [sweep_result sweep_registry] in *.
        apply Hcons; [exact Hthrow|]. left. split; [|reflexivity].
        unfold evicted. cbn [snd]. now rewrite Et.
    + cbn [sweep_result] in Hthrow. injection Hthrow as ->.
      exists [], k, c, rest. repeat split; auto.
  - destruct (ReadyState_eqb (readyState h k) OPEN) eqn:Eo.
    + destruct (ping_raises p k) as [e0|] eqn:Ep;
        cbn [sweep_result sweep_registry] in *;
        (apply Hcons; [exact Hthrow|]).
      * left. split; [|reflexivity].
        unfold evicted. cbn [fst snd]. now rewrite Et, Eo, Ep.
      * right. split; [|reflexivity].
        unfold evicted. cbn [fst snd]. now rewrite Et, Eo, Ep.
    + apply Hcons; [exact Hthrow|]. right. split; [|reflexivity].
      unfold evicted. cbn [fst snd]. now rewrite Et, Eo.
Qed.

Lemma NoDup_app_disjoint {A} (l1 l2 : list A) (a : A) :
  NoDup (l1 ++ l2) -> In a l1 -> ~ In a l2.
Proof.
  induction l1 as [|x l1 IH]; simpl; [tauto|].
  intros Hnd [-> | Hin] Hin2.
  - inversion Hnd as [|? ? Hnot _]; subst. apply Hnot, in_or_app. now right.
  - inversion Hnd; subst. now apply IH.
Qed.

(** X23.  A heartbeat sweep that raises stops at a timed-out session, the one
    whose log line could not be rendered or whose [close] raised.  That
    session and every session after it in the registry are still there: the
    raising session is not removed, and the rest of the registry goes
    without its heartbeat. *)
Theorem heartbeat_raise_strands_the_rest
    (p : Probes) (h : Host) (m : Registry) (e : Text) :
  wf_registry m ->
  sweep_result (heartbeat p h m) = Throw e ->
  exists pre k c post,
    m = (pre ++ (k, c) :: post)%list
    /\ timed_out (Date_now h) c = true
    /\ (template (userId c) = Throw e \/ close_raises p k = Some e)
    /\ (forall entry, In entry ((k, c) :: post) ->
                      In entry (sweep_registry (heartbeat p h m))).
Proof.
  intros Hwf Hthrow. unfold heartbeat in *.
  destruct (heartbeat_loop_raises p h (Date_now h) e m m Hthrow)
    as [pre [k [c [post [Hm [Ht [Hwhy Hreg]]]]]]].
  exists pre, k, c, post. split; [exact Hm|]. split; [exact Ht|].
  split; [exact Hwhy|].
  intros entry Hin. rewrite Hreg. apply in_delete_all. split.
  - rewrite Hm at 1. apply in_or_app. now right.
  - intro Hk. unfold wf_registry, keys in Hwf.
    rewrite Hm, map_app in Hwf.
    apply (NoDup_app_disjoint _ _ (fst entry) Hwf).
    + apply in_map_iff in Hk as [e0 [Hfst Hf]].
      apply filter_In in Hf as [Hf _].
      apply in_map_iff. eauto.
    + now apply in_map.
Qed.

Lemma heartbeat_raise_strands_the_rest_witness :
  exists pre k c post,
    [(1%nat, mkClient 1%nat JUndefined (JObj 0 None) (JStr "driver") (Some 10));
     (2%nat, passenger 2 5 10)]
    = (pre ++ (k, c) :: post)%list
    /\ timed_out (Date_now (calm 100000)) c = true
    /\ (template (userId c) = Throw "Cannot convert object to primitive value"
        \/ close_raises gentle k
           = Some (Lit "Cannot convert object to primitive value"))
    /\ (forall entry, In entry ((k, c) :: post) ->
          In entry (sweep_registry (heartbeat gentle (calm 100000)
             [(1%nat, mkClient 1%nat JUndefined (JObj 0 None) (JStr "driver")
                               (Some 10));
              (2%nat, passenger 2 5 10)]))).
Proof.
  apply (heartbeat_raise_strands_the_rest gentle (calm 100000)).
  - unfold wf_registry; simpl. repeat constructor; simpl; intuition discriminate.
  - reflexivity.
Defined.

Lemma aged_is_timed_out (now : Z) (c : TrackingClient) :
  timed_out now c = false ->
  lastPing_truthy c
  && match lastPing c with
     | Some t => now - t >? STALE_TIMEOUT
     | None => false
     end = false.
Proof.
  unfold timed_out, STALE_TIMEOUT, PING_TIMEOUT.
  destruct (lastPing_truthy c); [|reflexivity]. cbn [andb].
  destruct (lastPing c) as [t|]; [|reflexivity].
  rewrite !Z.gtb_ltb. intro H. apply Z.ltb_ge in H. apply Z.ltb_ge. lia.
Qed.

Lemma delete_all_wf (ks : list WS) (m : Registry) :
  wf_registry m -> wf_registry (delete_all ks m).
Proof.
  unfold delete_all. revert m.
  induction ks as [|k ks IH]; intros m Hwf; simpl; [exact Hwf|].
  apply IH, wf_delete, Hwf.
Qed.

Lemma heartbeat_survivors (p : Probes) (h : Host) (m : Registry)
    (k : WS) (c : TrackingClient) :
  sweep_result (heartbeat p h m) = Ok tt ->
  In (k, c) (sweep_registry (heartbeat p h m)) ->
  timed_out (Date_now h) c = false.
Proof.
  intros Hok Hin. rewrite (heartbeat_complete p h m Hok) in Hin.
  cbn [sweep_registry] in Hin.
  apply in_delete_all in Hin as [Hin Hk]. cbn [fst] in Hk.
  destruct (timed_out (Date_now h) c) eqn:Et; [|reflexivity].
  exfalso. apply Hk. apply (filtered_key _ _ _ c Hin).
  unfold evicted. cbn [snd]. now rewrite Et.
Qed.

(** X24.  The two sweeps together.  The heartbeat's threshold (70000 ms) is
    below the stale sweep's (120000 ms): once a heartbeat sweep has
    completed, a stale sweep under the same clock removes no session for its
    age, only the sessions whose socket is closed or closing. *)
Theorem stale_sweep_after_heartbeat
    (p : Probes) (h : Host) (m : Registry) :
  wf_registry m ->
  sweep_result (heartbeat p h m) = Ok tt ->
  registry (cleanupStaleConnections h (sweep_registry (heartbeat p h m)))
  = filter (fun e => negb (ReadyState_eqb (readyState h (fst e)) CLOSED
                           || ReadyState_eqb (readyState h (fst e)) CLOSING))
           (sweep_registry (heartbeat p h m)).
Proof.
  intros Hwf Hok.
  assert (Hwf' : wf_registry (sweep_registry (heartbeat p h m))).
  { rewrite (heartbeat_complete p h m Hok). cbn [sweep_registry].
    now apply delete_all_wf. }
  rewrite cleanup_run. cbn [registry].
  rewrite (delete_filtered_keys _ _ Hwf').
  apply filter_ext_in. intros [k c] Hin. f_equal.
  unfold stale. cbn [fst snd].
  rewrite aged_is_timed_out; [now rewrite orb_false_r|].
  now apply (heartbeat_survivors p h m k c).
Qed.

Lemma stale_sweep_after_heartbeat_witness :
  registry (cleanupStaleConnections (hung_up 3 200000)
              (sweep_registry (heartbeat gentle (hung_up 3 200000)
                 [(1%nat, driver 1 150000); (2%nat, passenger 2 5 10);
                  (3%nat, passenger 3 5 190000)])))
  = [(1%nat, driver 1 150000)].
Proof.
  rewrite (stale_sweep_after_heartbeat gentle (hung_up 3 200000)
             [(1%nat, driver 1 150000); (2%nat, passenger 2 5 10);
              (3%nat, passenger 3 5 190000)]).
  - reflexivity.
  - unfold wf_registry; simpl. repeat constructor; simpl; intuition discriminate.
  - reflexivity.
Defined.

(** ** What every reachable registry satisfies *)

Section Validated.

Variable P : Registry -> Prop.
Variable h : Host.

Hypothesis P_delete : forall m k, P m -> P (map_delete m k).
Hypothesis P_init :
  forall m k u r,
    truthy u = true -> truthy r = true ->
    P m -> P (map_set m k (mkClient k JUndefined u r (Some (Date_now h)))).
Hypothesis P_bind :
  forall m k b, truthy b = true -> P m -> P (map_mutate m k (set_bookingId b)).
Hypothesis P_stamp :
  forall m k, P m -> P (map_mutate m k (set_lastPing (Date_now h))).

Lemma validated_dispatch (k : WS) (client : option TrackingClient) (data : Msg.t) :
  keeps P h (dispatch k client data).
Proof.
  unfold dispatch.
  destruct (is_str (Msg.type data) "init").
  { intros m Hm. rewrite handle_init_run.
    destruct (truthy (Msg.userId data)) eqn:Hu;
      destruct (truthy (Msg.role data)) eqn:Hr; cbn [andb registry]; auto. }
  destruct (is_str (Msg.type data) "subscribe_tracking").
  { intros m Hm. destruct client as [c|].
    - rewrite handle_subscribe_run.
      destruct (truthy (Msg.bookingId data)) eqn:Hb; cbn [registry]; auto.
    - unfold handle_subscribe.
      destruct (truthy (Msg.bookingId data)); cbn [negb]; exact Hm. }
  destruct (is_str (Msg.type data) "location_update").
  { now apply keeps_handle_location. }
  destruct (is_str (Msg.type data) "ping").
  { now apply keeps_handle_ping. }
  apply keeps_untouched. intro m. unfold handle_unknown.
  rewrite bind_lift. now destruct (template (Msg.type data)).
Qed.

Lemma validated_handleMessage (k : WS) (message : Parsed) :
  keeps P h (handleMessage k message).
Proof.
  destruct message as [| |data]; cbn [handleMessage].
  - apply keeps_handleError.
  - now apply keeps_untouched.
  - destruct (negb (truthy (Msg.type data))); [apply keeps_handleError|].
    apply keeps_bind; [now apply keeps_untouched|].
    intro client.
    destruct (is_none client && negb (is_str (Msg.type data) "init"));
      [apply keeps_handleError|].
    apply keeps_catch; [apply validated_dispatch|].
    intro e. apply keeps_handleError.
Qed.

End Validated.

Lemma heartbeat_loop_keeps (P : Registry -> Prop) (p : Probes) (h : Host) (now : Z)
    (l : list (WS * TrackingClient)) :
  (forall m k, P m -> P (map_delete m k)) ->
  forall m, P m -> P (sweep_registry (heartbeat_loop p h now l m)).
Proof.
  intro Pd. induction l as [|[k c] rest IH]; intros m Hm; [exact Hm|].
  cbn [heartbeat_loop].
  destruct (timed_out now c).
  - destruct (template (userId c)); [|exact Hm].
    destruct (close_raises p k); [exact Hm|].
    cbn [sweep_registry]. auto.
  - destruct (ReadyState_eqb (readyState h k) OPEN); [|auto].
    destruct (ping_raises p k); cbn [sweep_registry]; auto.
Qed.

Lemma sound_delete (m : Registry) (k : WS) : sound m -> sound (map_delete m k).
Proof.
  intros Hm k' c' Hin. apply filter_In in Hin as [Hin _]. now apply Hm.
Qed.

(** X25.  Every registry the program can reach from the empty one holds each
    socket at most once, and every session in it has passed initialization:
    its record names its own socket, has a truthy userId and role, a
    bookingId that is absent or truthy, and a stamp. *)
Theorem reachable_registry_is_sound (m : Registry) :
  reachable m -> wf_registry m /\ sound m.
Proof.
  induction 1 as [| h k message m _ [Hwf Hs] | h k m _ [Hwf Hs]
                  | h m _ [Hwf Hs] | p h m _ [Hwf Hs]].
  - split; [constructor | intros k c []].
  - split; [now apply handleMessage_keeps_wf|].
    refine (validated_handleMessage sound h _ _ _ _ k message m Hs).
    + exact sound_delete.
    + intros m0 k0 u r Hu Hr Hm k' c' Hin.
      apply in_map_set in Hin as [Heq | Hin]; [|now apply Hm].
      injection Heq as -> ->. unfold sound_session; simpl. eauto 10.
    + intros m0 k0 b Hb Hm k' c' Hin.
      apply in_map_mutate in Hin as [Hin | [c [Hin ->]]]; [now apply Hm|].
      destruct (Hm k' c Hin) as [Hw [Hu [Hr [_ Ht]]]].
      unfold sound_session; simpl. eauto 10.
    + intros m0 k0 Hm k' c' Hin.
      apply in_map_mutate in Hin as [Hin | [c [Hin ->]]]; [now apply Hm|].
      destruct (Hm k' c Hin) as [Hw [Hu [Hr [Hb _]]]].
      unfold sound_session; simpl. eauto 10.
  - cbn [handleClose clients_delete registry].
    split; [now apply wf_delete | exact (sound_delete m k Hs)].
  - split.
    + exact (keeps_cleanup wf_registry h wf_delete m Hwf).
    + exact (keeps_cleanup sound h sound_delete m Hs).
  - unfold heartbeat. split.
    + exact (heartbeat_loop_keeps wf_registry p h _ m wf_delete m Hwf).
    + exact (heartbeat_loop_keeps sound p h _ m sound_delete m Hs).
Qed.

Lemma reachable_registry_is_sound_witness :
  wf_registry [(1%nat, mkClient 1%nat (num 5) (num 7) (JStr "driver") (Some 2000))]
  /\ sound [(1%nat, mkClient 1%nat (num 5) (num 7) (JStr "driver") (Some 2000))].
Proof.
  apply reachable_registry_is_sound.
  exact (reach_frame (calm 2000) 1%nat (ParsedData (msg_subscribe (num 5))) _
           (reach_frame (calm 1000) 1%nat
              (ParsedData (msg_init (num 7) (JStr "driver"))) _ reach_start)).
Defined.

Lemma reachable_registries_are_stamped_witness :
  stamped (fold_left
             (fun m f => registry (handleMessage (snd (fst f)) (snd f)
                                                 (fst (fst f)) m))
             [(calm 1000, 1%nat, ParsedData (msg_init (num 7) (JStr "driver")));
              (calm 2000, 2%nat, ParsedData (msg_init (num 8) (JStr "passenger")));
              (calm 3000, 2%nat, ParsedData (msg_subscribe (num 5)))]
             []).
Proof.
  apply reachable_registries_are_stamped.
  repeat constructor; simpl; discriminate.
Defined.
